(** * nextjs-maintenance-mode: the decision core, embedded and verified

    The development follows the layout of the library:
    - [types.ts]  : [MaintenanceConfig], [MaintenanceStatus], [MaintenanceOptions];
    - [config.ts] : [validateMaintenanceConfig], [isInMaintenanceWindow],
                    [isMaintenanceActive], [readMaintenanceConfig],
                    [getMaintenanceStatus];
    - [client.ts] : [calculateTimeRemaining], [formatCountdown].

    The JavaScript runtime the library talks to (wall clock, [Date] parser,
    file system, [JSON.parse], [process.cwd], [path.join], the console) is
    not code of the library; it is gathered in a [Host] record and in the
    [World] state threaded through an effect monad. *)

From Stdlib Require Import ZArith String Ascii List Lia Bool.
From Stdlib Require Import Floats.PrimFloat.
From Stdlib Require Import DecimalString.
From stdpp Require Import base option gmap strings.

Local Open Scope string_scope.
Local Open Scope Z_scope.

(** ** Decoded values

    [validateMaintenanceConfig(data: unknown)] is only ever handed the result
    of [JSON.parse]; such a value is null, a boolean, a Number (binary64), a
    string, an array or a plain object with own string-keyed properties. *)

Module Js.

#[warnings="-register-all"]
Inductive JsValue : Type :=
| JNull
| JBool (b : bool)
| JNum (x : float)
| JStr (s : string)
| JArr (items : list JsValue)
| JObj (props : gmap string JsValue).

(** The [typeof] operator. Its operand may be [undefined] (a property that
    does not exist), hence the [option]. *)
Inductive TypeTag := TUndefined | TObject | TBoolean | TNumber | TString.

Definition typeof (v : option JsValue) : TypeTag :=
  match v with
  | None => TUndefined
  | Some JNull => TObject
  | Some (JBool _) => TBoolean
  | Some (JNum _) => TNumber
  | Some (JStr _) => TString
  | Some (JArr _) => TObject
  | Some (JObj _) => TObject
  end.

Definition TypeTag_eqb (a b : TypeTag) : bool :=
  match a, b with
  | TUndefined, TUndefined | TObject, TObject | TBoolean, TBoolean
  | TNumber, TNumber | TString, TString => true
  | _, _ => false
  end.

(** ToBoolean: [null], [false], [0], [-0], [NaN] and [""] are falsy. *)
Definition truthy (v : JsValue) : bool :=
  match v with
  | JNull => false
  | JBool b => b
  | JNum x => negb (PrimFloat.is_zero x || PrimFloat.is_nan x)
  | JStr s => negb (String.eqb s "")
  | JArr _ => true
  | JObj _ => true
  end.

(** Property read [v.k]; [None] stands for [undefined]. It is used at the
    names [enabled], [startTime], [endTime] and [message] only, which an
    array does not have, so arrays answer [undefined]. *)
Definition get (v : JsValue) (k : string) : option JsValue :=
  match v with
  | JObj props => props !! k
  | _ => None
  end.

(** [x !== undefined]. *)
Definition defined (v : option JsValue) : bool :=
  match v with Some _ => true | None => false end.

(** Object literal. *)
Definition obj (l : list (string * JsValue)) : JsValue := JObj (list_to_map l).

(** Template-literal rendering of an integral Number (decimal digits, a
    leading minus sign for negatives); this is what ToString yields for
    every integer of magnitude below 10^21. *)
Definition Number_toString (n : Z) : string := NilZero.string_of_int (Z.to_int n).

(** A thrown value: whether it is an [instanceof Error], its [code]
    property when it has one (Node's system errors do), its [message]. *)
Record JsError := mkError {
  is_Error : bool;
  error_code : option string;
  error_message : string;
}.

End Js.
Import Js.

(** ToBoolean on a string, as in [if (config.startTime)]. *)
Definition nonempty (s : string) : bool := negb (String.eqb s "").

(** ** The runtime outside the library *)

Record Host := mkHost {
  (** time value (ms since the epoch) observed by the k-th [new Date()] *)
  clock : nat -> Z;
  (** [new Date(s).getTime()]; [None] is NaN, an Invalid Date *)
  Date_parse : string -> option Z;
  process_cwd : JsError + string;
  path_join : string -> string -> string;
  readFileSync : string -> JsError + string;
  JSON_parse : string -> JsError + JsValue;
}.

(** What the library changes: how often it has read the clock, and the
    lines it has written with [console.warn] (oldest first). *)
Record World := mkWorld {
  ticks : nat;
  console : list string;
}.

Inductive Outcome (A : Type) : Type :=
| Returned (a : A)
| Thrown (e : JsError).
Arguments Returned {A} a.
Arguments Thrown {A} e.

Definition Eff (A : Type) : Type := World -> Outcome A * World.

Definition ret {A} (a : A) : Eff A := fun w => (Returned a, w).

Definition bind {A B} (m : Eff A) (k : A -> Eff B) : Eff B :=
  fun w => match m w with
           | (Returned a, w') => k a w'
           | (Thrown e, w') => (Thrown e, w')
           end.

Definition throw {A} (e : JsError) : Eff A := fun w => (Thrown e, w).

Definition try_catch {A} (body : Eff A) (handler : JsError -> Eff A) : Eff A :=
  fun w => match body w with
           | (Returned a, w') => (Returned a, w')
           | (Thrown e, w') => handler e w'
           end.

Definition lift {A} (r : JsError + A) : Eff A :=
  match r with inl e => throw e | inr a => ret a end.

Notation "'let*' x ':=' m 'in' k" := (bind m (fun x => k))
  (at level 10, x name, m at level 100, k at level 200).
Notation "m ';;;' k" := (bind m (fun _ => k))
  (at level 100, k at level 200, right associativity).

Definition console_warn (msg : string) : Eff unit :=
  fun w => (Returned tt, {| ticks := ticks w; console := console w ++ [msg] |}).

(** ** types.ts *)

Record MaintenanceConfig := mkConfig {
  enabled : bool;
  startTime : option string;
  endTime : option string;
  message : option string;
}.

Record MaintenanceStatus := mkStatus {
  active : bool;
  config : option JsValue;
  reason : option string;
}.

Record MaintenanceOptions := mkOptions {
  configPath : option string;
  silent : option bool;
}.

(** [if (s)] on an optional string: the branch is taken for a present,
    non-empty string and gives that string. *)
Definition if_set (s : option string) : option string :=
  match s with
  | Some x => if nonempty x then Some x else None
  | None => None
  end.

(** [${s}] in a template literal, for an optional string. *)
Definition interpolate (s : option string) : string := default "undefined" s.

(** ** config.ts *)

Definition validateMaintenanceConfig (data : JsValue) : bool :=
  if negb (truthy data) || negb (TypeTag_eqb (typeof (Some data)) TObject) then false
  else
    let config := data in
    if negb (TypeTag_eqb (typeof (get config "enabled")) TBoolean) then false
    else if defined (get config "startTime")
            && negb (TypeTag_eqb (typeof (get config "startTime")) TString) then false
    else if defined (get config "endTime")
            && negb (TypeTag_eqb (typeof (get config "endTime")) TString) then false
    else if defined (get config "message")
            && negb (TypeTag_eqb (typeof (get config "message")) TString) then false
    else true.

(** The type guard narrows [data] to [MaintenanceConfig]; these are the
    field reads on a value so narrowed. *)
Definition as_config (data : JsValue) : MaintenanceConfig :=
  {| enabled := match get data "enabled" with Some x => truthy x | None => false end;
     startTime := match get data "startTime" with Some (JStr s) => Some s | _ => None end;
     endTime := match get data "endTime" with Some (JStr s) => Some s | _ => None end;
     message := match get data "message" with Some (JStr s) => Some s | _ => None end |}.

Definition safe_default : JsValue := obj [("enabled", JBool false)].

Section Library.

Variable h : Host.

Definition new_Date_now : Eff Z :=
  fun w => (Returned (clock h (ticks w)),
            {| ticks := S (ticks w); console := console w |}).

(** Early returns are written as [Some result]; [None] falls through. *)
Definition isInMaintenanceWindow (config : MaintenanceConfig) : Eff bool :=
  let* now := new_Date_now in
  let* early :=
    match if_set (startTime config) with
    | Some s =>
        match Date_parse h s with
        | None =>
            console_warn ("Invalid startTime format: " +:+ interpolate (startTime config)
                          +:+ ". Ignoring time check.") ;;;
            ret None
        | Some start => if now <? start then ret (Some false) else ret None
        end
    | None => ret None
    end in
  match early with
  | Some r => ret r
  | None =>
      let* early :=
        match if_set (endTime config) with
        | Some s =>
            match Date_parse h s with
            | None =>
                console_warn ("Invalid endTime format: " +:+ interpolate (endTime config)
                              +:+ ". Ignoring time check.") ;;;
                ret None
            | Some end_ => if now >? end_ then ret (Some false) else ret None
            end
        | None => ret None
        end in
      match early with
      | Some r => ret r
      | None => ret true
      end
  end.

Definition isMaintenanceActive (config : MaintenanceConfig) : Eff bool :=
  if negb (enabled config) then ret false
  else isInMaintenanceWindow config.

Definition readMaintenanceConfig (filePath : option string)
    (options : option MaintenanceOptions) : Eff JsValue :=
  let filePath := default "public/maintenance.json" filePath in
  let options := default {| configPath := None; silent := None |} options in
  let silent := default false (silent options) in
  try_catch
    (let* absolutePath :=
       if String.prefix "/" filePath then ret filePath
       else (let* cwd := lift (process_cwd h) in ret (path_join h cwd filePath)) in
     let* fileContent := lift (readFileSync h absolutePath) in
     let* data := lift (JSON_parse h fileContent) in
     if negb (validateMaintenanceConfig data) then
       (if negb silent then
          console_warn ("Invalid maintenance config structure in " +:+ filePath
                        +:+ ". Using default: { enabled: false }")
        else ret tt) ;;;
       ret safe_default
     else ret data)
    (fun error =>
       (if negb silent && is_Error error then
          if negb (bool_decide (error_code error = Some "ENOENT")) then
            console_warn ("Error reading maintenance config: " +:+ error_message error)
          else ret tt
        else ret tt) ;;;
       ret safe_default).

Definition getMaintenanceStatus (filePath : option string) : Eff MaintenanceStatus :=
  let* data := readMaintenanceConfig filePath None in
  let config := as_config data in
  if negb (enabled config) then
    ret {| active := false; config := Some data;
           reason := Some "Maintenance is disabled (enabled: false)" |}
  else
    let* inWindow := isInMaintenanceWindow config in
    let* early :=
      if negb inWindow then
        let* now := new_Date_now in
        if match if_set (startTime config) with
           | Some s => match Date_parse h s with
                       | Some start => start >? now
                       | None => false
                       end
           | None => false
           end
        then ret (Some {| active := false; config := Some data;
                          reason := Some ("Maintenance hasn't started yet (starts at "
                                          +:+ interpolate (startTime config) +:+ ")") |})
        else if match if_set (endTime config) with
                | Some s => match Date_parse h s with
                            | Some end_ => end_ <? now
                            | None => false
                            end
                | None => false
                end
        then ret (Some {| active := false; config := Some data;
                          reason := Some ("Maintenance has ended (ended at "
                                          +:+ interpolate (endTime config) +:+ ")") |})
        else ret None
      else ret None in
    match early with
    | Some r => ret r
    | None =>
        ret {| active := true; config := Some data;
               reason := Some (match if_set (endTime config) with
                               | Some _ =>
                                   "Maintenance active until " +:+ interpolate (endTime config)
                               | None => "Maintenance active (no end time specified)"
                               end) |}
    end.

End Library.

(** ** client.ts

    The fields of a breakdown are whole numbers, which is what
    [calculateTimeRemaining] produces. *)

Record TimeRemaining := mkRemaining {
  days : Z;
  hours : Z;
  minutes : Z;
  seconds : Z;
  totalSeconds : Z;
}.

Section Client.

Variable h : Host.

(** Time values are integral Numbers of magnitude at most 8.64e15, and the
    calculation is carried out here in exact integer arithmetic:
    [Math.floor(x / d)] for a positive integer [d] is [Z.div], [%] is
    [Z.rem]. Number arithmetic agrees with it as long as [end - now] stays
    below 2^53 in magnitude. *)
Definition calculateTimeRemaining (endTime : option string) : Eff (option TimeRemaining) :=
  match if_set endTime with
  | None => ret None
  | Some s =>
      match Date_parse h s with
      | None =>
          console_warn ("Invalid endTime format: " +:+ interpolate endTime) ;;;
          ret None
      | Some end_ =>
          let* now := new_Date_now h in
          let totalSeconds := Z.max 0 ((end_ - now) / 1000) in
          if totalSeconds =? 0 then
            ret (Some {| days := 0; hours := 0; minutes := 0; seconds := 0;
                         totalSeconds := 0 |})
          else
            let days := totalSeconds / (24 * 60 * 60) in
            let hours := Z.rem totalSeconds (24 * 60 * 60) / (60 * 60) in
            let minutes := Z.rem totalSeconds (60 * 60) / 60 in
            let seconds := Z.rem totalSeconds 60 in
            ret (Some {| days := days; hours := hours; minutes := minutes;
                         seconds := seconds; totalSeconds := totalSeconds |})
      end
  end.

End Client.

Definition formatCountdown (timeRemaining : option TimeRemaining) : string :=
  match timeRemaining with
  | None => ""
  | Some t =>
      if days t >? 0 then
        Number_toString (days t) +:+ "d " +:+ Number_toString (hours t) +:+ "h "
        +:+ Number_toString (minutes t) +:+ "m"
      else if hours t >? 0 then
        Number_toString (hours t) +:+ "h " +:+ Number_toString (minutes t) +:+ "m"
      else if minutes t >? 0 then
        Number_toString (minutes t) +:+ "m " +:+ Number_toString (seconds t) +:+ "s"
      else Number_toString (seconds t) +:+ "s"
  end.

(** ** Notions used to state the properties *)

(** The current time a call made in world [w] observes. *)
Definition now_at (h : Host) (w : World) : Z := clock h (ticks w).

(** A configuration with one bound replaced. *)
Definition with_startTime (s : option string) (c : MaintenanceConfig) : MaintenanceConfig :=
  {| enabled := enabled c; startTime := s; endTime := endTime c; message := message c |}.

Definition with_endTime (s : option string) (c : MaintenanceConfig) : MaintenanceConfig :=
  {| enabled := enabled c; startTime := startTime c; endTime := s; message := message c |}.

(** A bound with the empty string taken for an absent one. *)
Definition drop_empty (s : option string) : option string :=
  match s with
  | Some EmptyString => None
  | _ => s
  end.

(** The instant a bound contributes to the window check, if any. *)
Definition bound (h : Host) (s : option string) : option Z :=
  match if_set s with
  | Some x => Date_parse h x
  | None => None
  end.

(** [now] is inside the window spanned by the bounds that count. *)
Definition in_window (h : Host) (now : Z) (c : MaintenanceConfig) : bool :=
  match bound h (startTime c) with Some t => negb (now <? t) | None => true end
  && match bound h (endTime c) with Some t => negb (now >? t) | None => true end.

(** The validator's contract in the words of its specification: a value is
    turned down when it is null, is not an object/record, lacks [enabled],
    has an [enabled] that is not a boolean, or has a [startTime], [endTime]
    or [message] that is present without being a string. *)
Definition present_not_string (props : gmap string JsValue) (k : string) : Prop :=
  exists x, props !! k = Some x /\ forall s, x <> JStr s.

Definition turned_down (v : JsValue) : Prop :=
  v = JNull
  \/ (forall props, v <> JObj props)
  \/ exists props, v = JObj props /\
       (props !! "enabled" = None
        \/ (exists x, props !! "enabled" = Some x /\ forall b, x <> JBool b)
        \/ present_not_string props "startTime"
        \/ present_not_string props "endTime"
        \/ present_not_string props "message").

(** What the external store yields for [filePath], before validation: it
    cannot be reached (the path does not resolve, the file is missing or
    unreadable), its content is not well-formed JSON, or it decodes. *)
Inductive Fetched : Type :=
| Unreachable (e : JsError)
| Malformed (e : JsError)
| Decoded (data : JsValue).

Definition fetch_raw (h : Host) (filePath : option string) : Fetched :=
  let filePath := default "public/maintenance.json" filePath in
  let absolutePath :=
    if String.prefix "/" filePath then inr filePath
    else match process_cwd h with
         | inl e => inl e
         | inr cwd => inr (path_join h cwd filePath)
         end in
  match absolutePath with
  | inl e => Unreachable e
  | inr path =>
      match readFileSync h path with
      | inl e => Unreachable e
      | inr text =>
          match JSON_parse h text with
          | inl e => Malformed e
          | inr data => Decoded data
          end
      end
  end.

(** ** A concrete host, to run the library on

    [iso_parse] reads the UTC form [YYYY-MM-DDTHH:MM:SSZ] of ISO 8601 and
    rejects every other string; the file system holds a single file. *)

Module Sample.

Definition digit (c : ascii) : option Z :=
  let n := Z.of_nat (nat_of_ascii c) in
  if (48 <=? n) && (n <=? 57) then Some (n - 48) else None.

Fixpoint number (acc : Z) (cs : list ascii) : option Z :=
  match cs with
  | [] => Some acc
  | c :: cs' => match digit c with
                | Some d => number (10 * acc + d) cs'
                | None => None
                end
  end.

Definition is_leap (y : Z) : bool :=
  ((y mod 4 =? 0) && negb (y mod 100 =? 0)) || (y mod 400 =? 0).

Definition days_in_month (y m : Z) : Z :=
  if m =? 2 then (if is_leap y then 29 else 28)
  else if (m =? 4) || (m =? 6) || (m =? 9) || (m =? 11) then 30 else 31.

(** Days from 1970-01-01 to the given civil date (proleptic Gregorian). *)
Definition days_from_civil (y m d : Z) : Z :=
  let y' := if m <=? 2 then y - 1 else y in
  let era := y' / 400 in
  let yoe := y' - era * 400 in
  let mp := (m + 9) mod 12 in
  let doy := (153 * mp + 2) / 5 + d - 1 in
  let doe := yoe * 365 + yoe / 4 - yoe / 100 + doy in
  era * 146097 + doe - 719468.

Definition iso_parse (s : string) : option Z :=
  match list_ascii_of_string s with
  | [y1; y2; y3; y4; d1; m1; m2; d2; a1; a2; t; h1; h2; c1; n1; n2; c2; s1; s2; z] =>
      if negb (Ascii.eqb d1 "-" && Ascii.eqb d2 "-" && Ascii.eqb t "T"
               && Ascii.eqb c1 ":" && Ascii.eqb c2 ":" && Ascii.eqb z "Z")
      then None
      else
        match number 0 [y1; y2; y3; y4], number 0 [m1; m2], number 0 [a1; a2],
              number 0 [h1; h2], number 0 [n1; n2], number 0 [s1; s2] with
        | Some y, Some m, Some d, Some hh, Some mm, Some ss =>
            if (1 <=? m) && (m <=? 12) && (1 <=? d) && (d <=? days_in_month y m)
               && (hh <=? 23) && (mm <=? 59) && (ss <=? 59)
            then Some (((days_from_civil y m d * 24 + hh) * 60 + mm) * 60000 + ss * 1000)
            else None
        | _, _, _, _, _, _ => None
        end
  | _ => None
  end.

Definition ENOENT : JsError :=
  {| is_Error := true; error_code := Some "ENOENT";
     error_message := "ENOENT: no such file or directory" |}.

Definition SyntaxError : JsError :=
  {| is_Error := true; error_code := None; error_message := "Unexpected token" |}.

(** A host whose clock always shows [now] and whose only file, at
    [/app/public/maintenance.json], decodes to [data]. *)
Definition host (now : Z) (data : JsValue) : Host :=
  {| clock := fun _ => now;
     Date_parse := iso_parse;
     process_cwd := inr "/app";
     path_join := fun a b => a +:+ "/" +:+ b;
     readFileSync := fun p =>
       if String.eqb p "/app/public/maintenance.json" then inr "<maintenance.json>"
       else inl ENOENT;
     JSON_parse := fun text =>
       if String.eqb text "<maintenance.json>" then inr data else inl SyntaxError |}.

(** The same store, with a clock that shows [first] at the first reading
    and [later] from then on. *)
Definition jumping_host (first later : Z) (data : JsValue) : Host :=
  {| clock := fun k => match k with O => first | S _ => later end;
     Date_parse := iso_parse;
     process_cwd := process_cwd (host first data);
     path_join := path_join (host first data);
     readFileSync := readFileSync (host first data);
     JSON_parse := JSON_parse (host first data) |}.

(** The same store, holding a file that is not well-formed JSON. *)
Definition broken_host (now : Z) : Host :=
  {| clock := fun _ => now;
     Date_parse := iso_parse;
     process_cwd := inr "/app";
     path_join := fun a b => a +:+ "/" +:+ b;
     readFileSync := fun p =>
       if String.eqb p "/app/public/maintenance.json" then inr "{enabled:" else inl ENOENT;
     JSON_parse := fun _ => inl SyntaxError |}.

Definition world0 : World := {| ticks := 0; console := [] |}.

Definition t_0100 : Z := 1737334800000.
Definition t_0200 : Z := 1737338400000.
Definition t_0300 : Z := 1737342000000.
Definition t_0400 : Z := 1737345600000.
Definition t_0500 : Z := 1737349200000.

Definition window : JsValue :=
  obj [("enabled", JBool true);
       ("startTime", JStr "2025-01-20T02:00:00Z");
       ("endTime", JStr "2025-01-20T04:00:00Z")].

Definition t_0400_less_3661s : Z := t_0400 - 3661 * 1000.

(** Disabled, with a start that is no timestamp at all. *)
Definition disabled_malformed : MaintenanceConfig :=
  {| enabled := false; startTime := Some "next tuesday";
     endTime := Some "2025-01-20T04:00:00Z"; message := None |}.

Definition scheduled : MaintenanceConfig :=
  {| enabled := true; startTime := Some "2025-01-20T02:00:00Z";
     endTime := Some "2025-01-20T04:00:00Z"; message := None |}.

Definition malformed_start : MaintenanceConfig :=
  {| enabled := true; startTime := Some "next tuesday";
     endTime := Some "2025-01-20T04:00:00Z"; message := None |}.

Definition empty_bounds : MaintenanceConfig :=
  {| enabled := true; startTime := Some ""; endTime := Some ""; message := None |}.

End Sample.

(** ** client.ts: the effect of useCountdown

    [useCountdown(endTime)] keeps the breakdown in a state cell. Its effect
    either has nothing to count down to (no interval is created), or stores
    a first breakdown and starts an interval whose callback stores a new
    breakdown at every firing and clears the interval once the breakdown
    reaches zero. The state cell and the interval handle are passed
    explicitly; the timer is the successive firings of the callback. *)

Record Countdown := mkCountdown {
  timeRemaining : option TimeRemaining;
  (** an interval is running *)
  interval : bool;
}.

Section Countdown.

Variable h : Host.

(** The body of the effect, up to and including [setInterval]. *)
Definition useCountdown_effect (endTime : option string) : Eff Countdown :=
  match if_set endTime with
  | None => ret {| timeRemaining := None; interval := false |}
  | Some _ =>
      let* first := calculateTimeRemaining h endTime in
      ret {| timeRemaining := first; interval := true |}
  end.

(** One firing of the interval callback; a cleared interval fires no more.
    [remaining?.totalSeconds === 0] is false for [null]. *)
Definition useCountdown_tick (endTime : option string) (st : Countdown) : Eff Countdown :=
  if interval st then
    let* remaining := calculateTimeRemaining h endTime in
    let reachedZero :=
      match remaining with
      | Some t => totalSeconds t =? 0
      | None => false
      end in
    ret {| timeRemaining := remaining; interval := negb reachedZero |}
  else ret st.

(** [n] periods of the timer. *)
Fixpoint useCountdown_ticks (endTime : option string) (n : nat) (st : Countdown)
    : Eff Countdown :=
  match n with
  | O => ret st
  | S n' =>
      let* st' := useCountdown_tick endTime st in
      useCountdown_ticks endTime n' st'
  end.

(** The effect followed by [n] periods of the timer. *)
Definition useCountdown_run (endTime : option string) (n : nat) : Eff Countdown :=
  let* st := useCountdown_effect endTime in
  useCountdown_ticks endTime n st.

End Countdown.

(** ** The example application: proxy.ts and the status route *)

Module Example.

(** [String.prototype.includes]. *)
Fixpoint includes (needle s : string) : bool :=
  String.prefix needle s
  || match s with
     | EmptyString => false
     | String _ rest => includes needle rest
     end.

(** What the two handlers read of a request: [request.nextUrl.pathname]
    and [request.url]. *)
Record NextRequest := mkRequest {
  pathname : string;
  url : string;
}.

Inductive NextResponse : Type :=
| Next
| Redirect (target base : string)
| Json (body : MaintenanceStatus) (status : Z).

(** [console.error(label, error)] writes to the same stream as
    [console.warn]; the error is shown by its message. *)
Definition console_error (label : string) (error : JsError) : Eff unit :=
  console_warn (label +:+ " " +:+ error_message error).

Section Handlers.

Variable h : Host.

Definition proxy (request : NextRequest) : Eff NextResponse :=
  let pathname := pathname request in
  if String.prefix "/maintenance" pathname
     || String.prefix "/api/" pathname
     || String.prefix "/_next/" pathname
     || includes "." pathname
  then ret Next
  else
    let* config :=
      readMaintenanceConfig h (Some "public/maintenance.json")
        (Some {| configPath := None; silent := Some true |}) in
    let* isActive := isMaintenanceActive h (as_config config) in
    if isActive then ret (Redirect "/maintenance" (url request))
    else ret Next.

Definition GET : Eff NextResponse :=
  try_catch
    (let* status := getMaintenanceStatus h (Some "public/maintenance.json") in
     ret (Json status 200))
    (fun error =>
       console_error "Error fetching maintenance status:" error ;;;
       ret (Json {| active := false; config := None;
                    reason := Some "Error reading maintenance configuration" |} 500)).

End Handlers.

End Example.

(** ** Further notions used to state the properties *)

(** The value [readMaintenanceConfig] hands to its caller. *)
Definition read_result (h : Host) (filePath : option string) : JsValue :=
  match fetch_raw h filePath with
  | Decoded data => if validateMaintenanceConfig data then data else safe_default
  | Unreachable _ => safe_default
  | Malformed _ => safe_default
  end.

(** A set bound is one the window check looks at: present and non-empty. *)
Definition parses_if_set (h : Host) (s : option string) : Prop :=
  forall x, s = Some x -> x <> "" -> Date_parse h x <> None.

(** The path is one the proxy lets through without consulting the store. *)
Definition exempt (path : string) : bool :=
  String.prefix "/maintenance" path || String.prefix "/api/" path
  || String.prefix "/_next/" path || Example.includes "." path.

(** More sample data. *)
Module Cases.

Definition inverted : MaintenanceConfig :=
  {| enabled := true; startTime := Some "2025-01-20T04:00:00Z";
     endTime := Some "2025-01-20T02:00:00Z"; message := None |}.

Definition start_only_garbage_end : MaintenanceConfig :=
  {| enabled := true; startTime := Some "2025-01-20T02:00:00Z";
     endTime := Some "whenever"; message := None |}.

(** A clock that advances by one hour at every reading, from 01:00. *)
Definition hourly_host (data : JsValue) : Host :=
  {| clock := fun k => Sample.t_0100 + Z.of_nat k * 3600000;
     Date_parse := Sample.iso_parse;
     process_cwd := process_cwd (Sample.host 0 data);
     path_join := path_join (Sample.host 0 data);
     readFileSync := readFileSync (Sample.host 0 data);
     JSON_parse := JSON_parse (Sample.host 0 data) |}.

Definition EACCES : JsError :=
  {| is_Error := true; error_code := Some "EACCES";
     error_message := "EACCES: permission denied" |}.

(** The store refuses to be read. *)
Definition locked_host (now : Z) : Host :=
  {| clock := fun _ => now;
     Date_parse := Sample.iso_parse;
     process_cwd := inr "/app";
     path_join := fun a b => a +:+ "/" +:+ b;
     readFileSync := fun _ => inl EACCES;
     JSON_parse := fun _ => inl Sample.SyntaxError |}.

Definition home : Example.NextRequest :=
  {| Example.pathname := "/"; Example.url := "https://example.com/" |}.

Definition asset : Example.NextRequest :=
  {| Example.pathname := "/logo.png"; Example.url := "https://example.com/logo.png" |}.

End Cases.

(** * Properties *)

(** ** Running the effect monad *)

Ltac run :=
  unfold isMaintenanceActive, isInMaintenanceWindow, calculateTimeRemaining,
    new_Date_now, console_warn, bind, ret, throw, lift, try_catch, now_at in *;
  simpl in *.

Lemma if_set_Some (o : option string) (s : string) :
  if_set o = Some s <-> o = Some s /\ s <> "".
Proof.
  unfold if_set, nonempty. destruct o as [x|]; [|split; [discriminate | intros [H _]; discriminate]].
  destruct (String.eqb_spec x ""); simpl; split.
  - discriminate.
  - intros [H Hne]. injection H as ->. contradiction.
  - intros H. injection H as ->. auto.
  - intros [H _]. exact H.
Qed.

Lemma if_set_None (o : option string) :
  if_set o = None <-> o = None \/ o = Some "".
Proof.
  unfold if_set, nonempty. destruct o as [x|]; [|tauto].
  destruct (String.eqb_spec x ""); simpl; split; try subst; auto; try discriminate.
  intros [H|H]; [discriminate | injection H; contradiction].
Qed.

Lemma bound_Some (h : Host) (o : option string) (t : Z) :
  bound h o = Some t <-> exists s, o = Some s /\ s <> "" /\ Date_parse h s = Some t.
Proof.
  unfold bound. destruct (if_set o) as [x|] eqn:E.
  - apply if_set_Some in E as [-> Hne]. split; [eauto|].
    intros (s & Hs & _ & Hp). injection Hs as ->. exact Hp.
  - split; [discriminate|]. intros (s & Hs & Hne & _).
    apply if_set_None in E as [E|E]; congruence.
Qed.

(** The window check reads the clock once, returns normally, and its
    verdict is [in_window] at the instant read. *)
Lemma isInMaintenanceWindow_verdict (h : Host) (c : MaintenanceConfig) (w : World) :
  fst (isInMaintenanceWindow h c w) = Returned (in_window h (now_at h w) c)
  /\ ticks (snd (isInMaintenanceWindow h c w)) = S (ticks w).
Proof.
  unfold in_window, bound. run.
  destruct (if_set (startTime c)) as [s|]; [destruct (Date_parse h s) as [t|]|];
    simpl; try destruct (clock h (ticks w) <? t); simpl; auto;
    (destruct (if_set (endTime c)) as [e|]; [destruct (Date_parse h e) as [t'|]|];
     simpl; try destruct (clock h (ticks w) >? t'); simpl; auto).
Qed.

Lemma isMaintenanceActive_verdict (h : Host) (c : MaintenanceConfig) (w : World) :
  fst (isMaintenanceActive h c w) = Returned (enabled c && in_window h (now_at h w) c).
Proof.
  unfold isMaintenanceActive. destruct (enabled c); simpl; [|reflexivity].
  apply isInMaintenanceWindow_verdict.
Qed.

(** ** The validator *)

Lemma typeof_boolean (o : option JsValue) :
  TypeTag_eqb (typeof o) TBoolean = false <->
  o = None \/ exists x, o = Some x /\ forall b, x <> JBool b.
Proof.
  destruct o as [x|]; simpl.
  - destruct x; simpl; split; try (intros _; reflexivity); try discriminate;
      try (intros _; right; eexists; split; [reflexivity|]; intros; discriminate).
    intros [H|(x & H & Hx)]; [discriminate|]. injection H as <-.
    exfalso. eapply Hx. reflexivity.
  - split; [auto | reflexivity].
Qed.

Lemma wrong_type_present (props : gmap string JsValue) (k : string) :
  defined (props !! k) && negb (TypeTag_eqb (typeof (props !! k)) TString) = true <->
  present_not_string props k.
Proof.
  unfold present_not_string.
  destruct (props !! k) as [x|]; simpl.
  - destruct x; simpl; split; try (intros _; reflexivity); try discriminate;
      try (intros _; eexists; split; [reflexivity|]; intros; discriminate).
    intros (x & H & Hx). injection H as <-. exfalso. eapply Hx. reflexivity.
  - split; [discriminate | intros (x & H & _); discriminate].
Qed.

Lemma right_type_or_absent (props : gmap string JsValue) (k : string) :
  defined (props !! k) && negb (TypeTag_eqb (typeof (props !! k)) TString) = false ->
  ~ present_not_string props k.
Proof.
  intros Hf Hp. apply wrong_type_present in Hp. congruence.
Qed.

Lemma validate_object (props : gmap string JsValue) :
  validateMaintenanceConfig (JObj props) = false <->
  (props !! "enabled" = None
   \/ (exists x, props !! "enabled" = Some x /\ forall b, x <> JBool b)
   \/ present_not_string props "startTime"
   \/ present_not_string props "endTime"
   \/ present_not_string props "message").
Proof.
  unfold validateMaintenanceConfig. cbn [truthy typeof get negb orb TypeTag_eqb].
  destruct (TypeTag_eqb (typeof (props !! "enabled")) TBoolean) eqn:Hen; cbn [negb].
  - assert (Hb : ~ (props !! "enabled" = None
                    \/ exists x, props !! "enabled" = Some x /\ forall b, x <> JBool b)).
    { intros H. apply typeof_boolean in H. congruence. }
    destruct (defined (props !! "startTime") && _) eqn:Hs.
    { split; [|reflexivity]. intros _. apply wrong_type_present in Hs. tauto. }
    apply right_type_or_absent in Hs.
    destruct (defined (props !! "endTime") && _) eqn:He.
    { split; [|reflexivity]. intros _. apply wrong_type_present in He. tauto. }
    apply right_type_or_absent in He.
    destruct (defined (props !! "message") && _) eqn:Hm.
    { split; [|reflexivity]. intros _. apply wrong_type_present in Hm. tauto. }
    apply right_type_or_absent in Hm.
    split; [discriminate|]. tauto.
  - split; [|reflexivity]. intros _. apply typeof_boolean in Hen. tauto.
Qed.

(** On a value the validator accepts, [as_config] loses nothing: each
    field is the property of the same name. *)
Lemma as_config_faithful (data : JsValue) :
  validateMaintenanceConfig data = true ->
  get data "enabled" = Some (JBool (enabled (as_config data)))
  /\ get data "startTime" = JStr <$> startTime (as_config data)
  /\ get data "endTime" = JStr <$> endTime (as_config data)
  /\ get data "message" = JStr <$> message (as_config data).
Proof.
  destruct data as [|b|x|s|items|props];
    try (unfold validateMaintenanceConfig; simpl;
         try destruct (negb _); discriminate).
  unfold validateMaintenanceConfig, as_config, get.
  cbn [truthy typeof negb orb TypeTag_eqb enabled startTime endTime message].
  destruct (props !! "enabled") as [[]|];
    cbn [typeof TypeTag_eqb negb]; try discriminate.
  destruct (props !! "startTime") as [[]|];
    cbn [defined typeof TypeTag_eqb negb andb]; try discriminate;
    (destruct (props !! "endTime") as [[]|];
     cbn [defined typeof TypeTag_eqb negb andb]; try discriminate);
    (destruct (props !! "message") as [[]|];
     cbn [defined typeof TypeTag_eqb negb andb]; try discriminate);
    intros _; repeat split.
Qed.

(** C5. [validateMaintenanceConfig] returns false for every value that
    is null, is not an object/record, lacks [enabled], has a non-boolean
    [enabled], or has a [startTime], [endTime] or [message] that is present
    and not a string, and true for every other value. Strings given as
    bounds are not inspected: any two strings pass. [null], [{}],
    [{enabled: "true"}] and [{enabled: true, startTime: 123}] are turned
    down; [{enabled: true}] and
    [{enabled: false, startTime: "2025-01-01T00:00:00Z"}] are accepted. *)
Theorem validator_contract :
  (forall v, validateMaintenanceConfig v = false <-> turned_down v)
  /\ (forall v, validateMaintenanceConfig v = true <-> ~ turned_down v)
  /\ (forall b s e,
       validateMaintenanceConfig
         (obj [("enabled", JBool b); ("startTime", JStr s); ("endTime", JStr e)]) = true)
  /\ validateMaintenanceConfig JNull = false
  /\ validateMaintenanceConfig (obj []) = false
  /\ validateMaintenanceConfig (obj [("enabled", JStr "true")]) = false
  /\ validateMaintenanceConfig
       (obj [("enabled", JBool true); ("startTime", JNum 123%float)]) = false
  /\ validateMaintenanceConfig (obj [("enabled", JBool true)]) = true
  /\ validateMaintenanceConfig
       (obj [("enabled", JBool false); ("startTime", JStr "2025-01-01T00:00:00Z")]) = true.
Proof.
  assert (Hiff : forall v, validateMaintenanceConfig v = false <-> turned_down v).
  { intros v. unfold turned_down. destruct v as [|b|x|s|items|props].
    - split; [auto | reflexivity].
    - split; [intros _; right; left; discriminate|].
      intros _. unfold validateMaintenanceConfig. simpl. destruct b; reflexivity.
    - split; [intros _; right; left; discriminate|].
      intros _. unfold validateMaintenanceConfig. simpl.
      destruct (negb _); reflexivity.
    - split; [intros _; right; left; discriminate|].
      intros _. unfold validateMaintenanceConfig. simpl.
      destruct (negb _); reflexivity.
    - split; [intros _; right; left; discriminate | reflexivity].
    - rewrite validate_object. split.
      + intros H. right. right. exists props. split; [reflexivity | exact H].
      + intros [H|[H|(props' & Heq & H)]].
        * discriminate.
        * exfalso. eapply H. reflexivity.
        * injection Heq as <-. exact H. }
  split; [exact Hiff|]. split.
  { intros v. rewrite <- Hiff. destruct (validateMaintenanceConfig v); split;
      congruence. }
  repeat split; intros; vm_compute; reflexivity.
Qed.

(** ** Config acquisition *)

Lemma safe_default_valid : validateMaintenanceConfig safe_default = true.
Proof. vm_compute. reflexivity. Qed.

Lemma read_accepted (h : Host) (filePath : option string)
    (options : option MaintenanceOptions) (w : World) (data : JsValue) :
  fetch_raw h filePath = Decoded data ->
  validateMaintenanceConfig data = true ->
  readMaintenanceConfig h filePath options w = (Returned data, w).
Proof.
  unfold fetch_raw, readMaintenanceConfig, try_catch, bind, lift, ret, throw.
  intros Hf Hv.
  destruct (String.prefix "/" (default "public/maintenance.json" filePath)).
  - destruct (readFileSync h _) as [e|text]; [discriminate|].
    destruct (JSON_parse h text) as [e|d]; [discriminate|].
    injection Hf as ->. rewrite Hv. reflexivity.
  - destruct (process_cwd h) as [e|cwd]; [discriminate|].
    destruct (readFileSync h _) as [e|text]; [discriminate|].
    destruct (JSON_parse h text) as [e|d]; [discriminate|].
    injection Hf as ->. rewrite Hv. reflexivity.
Qed.

(** C4. [readMaintenanceConfig] never raises: in every world and for
    every path and options it returns a value. That value is the safe
    default [{enabled: false}] whenever the store cannot be reached (file
    missing or unreadable), its content is not well-formed JSON, or the
    decoded value is turned down by the validator, and it is the decoded
    value otherwise; in all cases it satisfies [validateMaintenanceConfig]. *)
Theorem read_never_raises (h : Host) (filePath : option string)
    (options : option MaintenanceOptions) (w : World) :
  exists v w',
    readMaintenanceConfig h filePath options w = (Returned v, w')
    /\ validateMaintenanceConfig v = true
    /\ v = match fetch_raw h filePath with
           | Unreachable _ => safe_default
           | Malformed _ => safe_default
           | Decoded data =>
               if validateMaintenanceConfig data then data else safe_default
           end.
Proof.
  unfold fetch_raw, readMaintenanceConfig, try_catch, bind, lift, ret, throw,
    console_warn.
  destruct (String.prefix "/" (default "public/maintenance.json" filePath));
    [|destruct (process_cwd h) as [e|cwd]];
    try (destruct (readFileSync h _) as [e|text];
         [|destruct (JSON_parse h text) as [e|d];
           [|destruct (validateMaintenanceConfig d) eqn:Hv]]);
    cbn [negb];
    repeat match goal with
           | |- context [if ?b then _ else _] => destruct b
           end;
    do 2 eexists; (split; [reflexivity|]); split;
    auto using safe_default_valid.
Qed.

(** ** The decision engine *)

(** C1. A configuration with [enabled = false] is inactive whatever its
    [startTime] and [endTime] are, malformed ones included, and the verdict
    is reached without evaluating the time window: the clock is not read
    and nothing is written to the console, the world is left as it was. *)
Theorem disabled_is_inactive (h : Host) (c : MaintenanceConfig) (w : World) :
  enabled c = false ->
  isMaintenanceActive h c w = (Returned false, w).
Proof.
  intros Hoff. unfold isMaintenanceActive. rewrite Hoff. reflexivity.
Qed.

Lemma disabled_is_inactive_witness :
  enabled Sample.disabled_malformed = false
  /\ isMaintenanceActive (Sample.host Sample.t_0300 Sample.window)
       Sample.disabled_malformed Sample.world0
     = (Returned false, Sample.world0).
Proof.
  split; [reflexivity|].
  apply (disabled_is_inactive (Sample.host Sample.t_0300 Sample.window)
           Sample.disabled_malformed Sample.world0).
  reflexivity.
Defined.

(** C2. For an enabled configuration evaluated at the instant [now]:
    with neither bound set the verdict is active; with a [startTime] that
    parses to an instant strictly after [now] it is inactive; with an
    [endTime] that parses to an instant strictly before [now] it is
    inactive; and when [now] is not before any parsed start and not after
    any parsed end (bounds that are absent or do not parse impose nothing)
    it is active. The host's [Date] gives an Invalid Date for the empty
    string, as every ECMAScript engine does. *)
Theorem enabled_follows_window (h : Host) (c : MaintenanceConfig) (w : World) :
  enabled c = true ->
  Date_parse h "" = None ->
  let now := now_at h w in
  let verdict := fst (isMaintenanceActive h c w) in
  (startTime c = None -> endTime c = None -> verdict = Returned true)
  /\ (forall s t, startTime c = Some s -> Date_parse h s = Some t -> now < t ->
       verdict = Returned false)
  /\ (forall s t, endTime c = Some s -> Date_parse h s = Some t -> t < now ->
       verdict = Returned false)
  /\ ((forall s t, startTime c = Some s -> Date_parse h s = Some t -> t <= now) ->
      (forall s t, endTime c = Some s -> Date_parse h s = Some t -> now <= t) ->
      verdict = Returned true).
Proof.
  intros Hon Hempty now verdict. subst verdict.
  rewrite isMaintenanceActive_verdict, Hon. fold now. simpl. unfold in_window.
  repeat split.
  - intros -> ->. reflexivity.
  - intros s t Hs Hp Hlt.
    assert (Hb : bound h (startTime c) = Some t).
    { apply bound_Some. exists s. repeat split; auto. intros ->. congruence. }
    rewrite Hb. replace (now <? t) with true by (symmetry; apply Z.ltb_lt; lia).
    reflexivity.
  - intros s t Hs Hp Hlt.
    assert (Hb : bound h (endTime c) = Some t).
    { apply bound_Some. exists s. repeat split; auto. intros ->. congruence. }
    rewrite Hb. replace (now >? t) with true by (symmetry; apply Z.gtb_lt; lia).
    rewrite andb_false_r. reflexivity.
  - intros Hstart Hend.
    destruct (bound h (startTime c)) as [t|] eqn:Bs.
    + apply bound_Some in Bs as (s & Hs & _ & Hp). specialize (Hstart s t Hs Hp).
      replace (now <? t) with false by (symmetry; apply Z.ltb_ge; lia). simpl.
      destruct (bound h (endTime c)) as [t'|] eqn:Be; [|reflexivity].
      apply bound_Some in Be as (e & He & _ & Hp'). specialize (Hend e t' He Hp').
      replace (now >? t') with false by (rewrite Z.gtb_ltb; symmetry; apply Z.ltb_ge; lia).
      reflexivity.
    + simpl. destruct (bound h (endTime c)) as [t'|] eqn:Be; [|reflexivity].
      apply bound_Some in Be as (e & He & _ & Hp'). specialize (Hend e t' He Hp').
      replace (now >? t') with false by (rewrite Z.gtb_ltb; symmetry; apply Z.ltb_ge; lia).
      reflexivity.
Qed.

Lemma enabled_follows_window_witness :
  enabled Sample.scheduled = true
  /\ Date_parse (Sample.host Sample.t_0100 Sample.window) "" = None
  /\ fst (isMaintenanceActive (Sample.host Sample.t_0100 Sample.window)
            Sample.scheduled Sample.world0) = Returned false.
Proof.
  split; [reflexivity|]. split; [reflexivity|].
  apply (proj1 (proj2 (enabled_follows_window
                         (Sample.host Sample.t_0100 Sample.window)
                         Sample.scheduled Sample.world0 eq_refl eq_refl))
           "2025-01-20T02:00:00Z" Sample.t_0200).
  - reflexivity.
  - vm_compute. reflexivity.
  - vm_compute. reflexivity.
Defined.

(** C7. In an enabled configuration, a [startTime] (respectively
    [endTime]) that is set but does not parse leaves the window check with
    the result it has when that bound is absent: the check still returns
    normally, the verdict of [isMaintenanceActive] is the same too, and if
    the other bound is absent the window is open. *)
Theorem unparseable_bound_is_dropped (h : Host) (c : MaintenanceConfig) (w : World) :
  enabled c = true ->
  (forall s, startTime c = Some s -> Date_parse h s = None ->
     fst (isInMaintenanceWindow h c w)
       = fst (isInMaintenanceWindow h (with_startTime None c) w)
     /\ fst (isMaintenanceActive h c w)
        = fst (isMaintenanceActive h (with_startTime None c) w)
     /\ (exists b, fst (isInMaintenanceWindow h c w) = Returned b)
     /\ (endTime c = None -> fst (isMaintenanceActive h c w) = Returned true))
  /\ (forall s, endTime c = Some s -> Date_parse h s = None ->
     fst (isInMaintenanceWindow h c w)
       = fst (isInMaintenanceWindow h (with_endTime None c) w)
     /\ fst (isMaintenanceActive h c w)
        = fst (isMaintenanceActive h (with_endTime None c) w)
     /\ (exists b, fst (isInMaintenanceWindow h c w) = Returned b)
     /\ (startTime c = None -> fst (isMaintenanceActive h c w) = Returned true)).
Proof.
  intros Hon. split; intros s Hs Hp.
  - assert (Hb : bound h (startTime c) = None).
    { unfold bound. destruct (if_set (startTime c)) as [x|] eqn:E; [|reflexivity].
      apply if_set_Some in E as [E _]. congruence. }
    assert (Hw : forall now, in_window h now c = in_window h now (with_startTime None c)).
    { intros now. unfold in_window. rewrite Hb. reflexivity. }
    rewrite !isMaintenanceActive_verdict.
    rewrite (proj1 (isInMaintenanceWindow_verdict h c w)).
    rewrite (proj1 (isInMaintenanceWindow_verdict h (with_startTime None c) w)).
    rewrite Hw, Hon. simpl. rewrite Hon. repeat split; eauto.
    intros He. unfold in_window, bound. simpl. rewrite He. reflexivity.
  - assert (Hb : bound h (endTime c) = None).
    { unfold bound. destruct (if_set (endTime c)) as [x|] eqn:E; [|reflexivity].
      apply if_set_Some in E as [E _]. congruence. }
    assert (Hw : forall now, in_window h now c = in_window h now (with_endTime None c)).
    { intros now. unfold in_window. rewrite Hb. reflexivity. }
    rewrite !isMaintenanceActive_verdict.
    rewrite (proj1 (isInMaintenanceWindow_verdict h c w)).
    rewrite (proj1 (isInMaintenanceWindow_verdict h (with_endTime None c) w)).
    rewrite Hw, Hon. simpl. rewrite Hon. repeat split; eauto.
    intros He. unfold in_window, bound. simpl. rewrite He. reflexivity.
Qed.

Lemma unparseable_bound_is_dropped_witness :
  enabled Sample.malformed_start = true
  /\ fst (isInMaintenanceWindow (Sample.host Sample.t_0300 Sample.window)
            Sample.malformed_start Sample.world0)
     = fst (isInMaintenanceWindow (Sample.host Sample.t_0300 Sample.window)
              (with_startTime None Sample.malformed_start) Sample.world0).
Proof.
  split; [reflexivity|].
  exact (proj1 (proj1 (unparseable_bound_is_dropped
                         (Sample.host Sample.t_0300 Sample.window)
                         Sample.malformed_start Sample.world0 eq_refl)
                  "next tuesday" eq_refl eq_refl)).
Defined.

(** C9. Both endpoints belong to the window. For an enabled
    configuration, at an instant equal to a parsed [startTime] (and not
    after any parsed [endTime]), or equal to a parsed [endTime] (and not
    before any parsed [startTime]), the verdict is active: the code compares
    with [now < start] and [now > end], both strict. *)
Theorem window_includes_endpoints (h : Host) (c : MaintenanceConfig) (w : World) :
  enabled c = true ->
  let now := now_at h w in
  (forall s, startTime c = Some s -> Date_parse h s = Some now ->
     (forall e t, endTime c = Some e -> Date_parse h e = Some t -> now <= t) ->
     fst (isMaintenanceActive h c w) = Returned true)
  /\ (forall e, endTime c = Some e -> Date_parse h e = Some now ->
     (forall s t, startTime c = Some s -> Date_parse h s = Some t -> t <= now) ->
     fst (isMaintenanceActive h c w) = Returned true).
Proof.
  intros Hon now.
  assert (Hopen : (forall s t, startTime c = Some s -> Date_parse h s = Some t -> t <= now) ->
                  (forall e t, endTime c = Some e -> Date_parse h e = Some t -> now <= t) ->
                  fst (isMaintenanceActive h c w) = Returned true).
  { intros Hstart Hend. rewrite isMaintenanceActive_verdict, Hon. fold now.
    simpl. unfold in_window.
    destruct (bound h (startTime c)) as [t|] eqn:Bs;
      [apply bound_Some in Bs as (s & Hs & _ & Hp); specialize (Hstart s t Hs Hp);
       replace (now <? t) with false by (symmetry; apply Z.ltb_ge; lia)|];
      (destruct (bound h (endTime c)) as [t'|] eqn:Be;
       [apply bound_Some in Be as (e & He & _ & Hp'); specialize (Hend e t' He Hp');
        replace (now >? t') with false
          by (rewrite Z.gtb_ltb; symmetry; apply Z.ltb_ge; lia)|]);
      reflexivity. }
  split.
  - intros s Hs Hp Hend. apply Hopen; [|exact Hend].
    intros s' t Hs' Hp'. assert (s' = s) by congruence. subst s'.
    assert (t = now) by congruence. lia.
  - intros e He Hp Hstart. apply Hopen; [exact Hstart|].
    intros e' t He' Hp'. assert (e' = e) by congruence. subst e'.
    assert (t = now) by congruence. lia.
Qed.

Lemma window_includes_endpoints_witness :
  enabled Sample.scheduled = true
  /\ fst (isMaintenanceActive (Sample.host Sample.t_0400 Sample.window)
            Sample.scheduled Sample.world0) = Returned true.
Proof.
  split; [reflexivity|].
  apply (proj2 (window_includes_endpoints
                  (Sample.host Sample.t_0400 Sample.window)
                  Sample.scheduled Sample.world0 eq_refl) "2025-01-20T04:00:00Z").
  - reflexivity.
  - vm_compute. reflexivity.
  - intros s t Hs Hp. injection Hs as <-. vm_compute in Hp. injection Hp as <-.
    vm_compute. discriminate.
Defined.

(** C10. An empty-string bound is an absent bound, not an unparseable
    one. The window check run on a configuration is, result and world alike,
    the check run on the configuration with its empty bounds removed, so no
    constraint is applied and no warning is added for them; an enabled
    configuration whose two bounds are empty strings is active and leaves
    the console untouched; [calculateTimeRemaining("")] returns [null]
    without reading the clock or warning, exactly as for a missing argument.
    A non-empty bound that does not parse, by contrast, does add a warning. *)
Theorem empty_bound_is_absent (h : Host) (w : World) :
  (forall c,
     isInMaintenanceWindow h c w
     = isInMaintenanceWindow h
         (with_startTime (drop_empty (startTime c))
            (with_endTime (drop_empty (endTime c)) c)) w)
  /\ (forall msg,
       isMaintenanceActive h
         {| enabled := true; startTime := Some ""; endTime := Some ""; message := msg |} w
       = (Returned true, {| ticks := S (ticks w); console := console w |}))
  /\ calculateTimeRemaining h (Some "") w = (Returned None, w)
  /\ calculateTimeRemaining h (Some "") w = calculateTimeRemaining h None w
  /\ (forall s msg, s <> "" -> Date_parse h s = None ->
       console (snd (isInMaintenanceWindow h
                       {| enabled := true; startTime := Some s; endTime := None;
                          message := msg |} w))
       = (console w ++ ["Invalid startTime format: " +:+ s +:+ ". Ignoring time check."])%list).
Proof.
  split; [|split; [|split; [|split]]]; try reflexivity.
  - intros [en [[|a s]|] [[|a' s']|] msg]; reflexivity.
  - intros s msg Hne Hp.
    assert (E : if_set (Some s) = Some s) by (apply if_set_Some; auto).
    unfold isInMaintenanceWindow. cbn [startTime endTime]. rewrite E, Hp.
    reflexivity.
Qed.

Lemma empty_bound_is_absent_witness :
  isMaintenanceActive (Sample.host Sample.t_0300 Sample.window)
    Sample.empty_bounds Sample.world0
  = (Returned true, {| ticks := 1; console := [] |}).
Proof.
  exact (proj1 (proj2 (empty_bound_is_absent
                         (Sample.host Sample.t_0300 Sample.window) Sample.world0))
           None).
Defined.

(** ** The status query *)

Lemma isInMaintenanceWindow_returns (h : Host) (c : MaintenanceConfig) (w : World) :
  exists w', isInMaintenanceWindow h c w = (Returned (in_window h (now_at h w) c), w')
             /\ ticks w' = S (ticks w).
Proof.
  destruct (isInMaintenanceWindow_verdict h c w) as [Hv Ht].
  destruct (isInMaintenanceWindow h c w) as [r w']. simpl in *. subst r. eauto.
Qed.

(** C3. Take a configuration that the validator accepts, fetched at a
    fixed current time [now]. Then [getMaintenanceStatus] returns a status
    whose [active] is the verdict of [isMaintenanceActive] on that
    configuration, whose [config] is that configuration, and whose [reason]
    is present and follows the decision table: the disabled reason when
    [enabled] is false; when enabled, the not-started reason naming
    [startTime] if [now] is before a parsed [startTime]; the ended reason
    naming [endTime] if the start does not fail and [now] is after a parsed
    [endTime]; and when the status is active, the active reason naming
    [endTime] if one is set (a non-empty string), and the no-end-time reason
    if none is. The host's [Date] gives an Invalid Date for the empty
    string. *)
Theorem status_follows_decision_table (h : Host) (filePath : option string)
    (w : World) (data : JsValue) (now : Z) :
  (forall k, clock h k = now) ->
  Date_parse h "" = None ->
  fetch_raw h filePath = Decoded data ->
  validateMaintenanceConfig data = true ->
  let c := as_config data in
  exists st w' r,
    getMaintenanceStatus h filePath w = (Returned st, w')
    /\ fst (isMaintenanceActive h c w) = Returned (active st)
    /\ config st = Some data
    /\ reason st = Some r
    /\ (enabled c = false -> r = "Maintenance is disabled (enabled: false)")
    /\ (enabled c = true ->
        forall s t, startTime c = Some s -> Date_parse h s = Some t -> now < t ->
        r = "Maintenance hasn't started yet (starts at " +:+ s +:+ ")")
    /\ (enabled c = true ->
        (forall s t, startTime c = Some s -> Date_parse h s = Some t -> t <= now) ->
        forall e t, endTime c = Some e -> Date_parse h e = Some t -> t < now ->
        r = "Maintenance has ended (ended at " +:+ e +:+ ")")
    /\ (active st = true ->
        (forall e, endTime c = Some e -> e <> "" -> r = "Maintenance active until " +:+ e)
        /\ (endTime c = None \/ endTime c = Some "" ->
            r = "Maintenance active (no end time specified)")).
Proof.
  intros Hclock Hempty Hfetch Hvalid c.
  unfold getMaintenanceStatus, bind at 1.
  rewrite (read_accepted h filePath None w data Hfetch Hvalid). fold c.
  rewrite isMaintenanceActive_verdict. unfold now_at. rewrite Hclock.
  destruct (enabled c) eqn:Hon; cbn [negb andb].
  2:{ do 3 eexists. split; [reflexivity|]. cbn [active config reason].
      repeat split; try discriminate; reflexivity. }
  destruct (isInMaintenanceWindow_returns h c w) as (w1 & Hrun & Hticks).
  unfold now_at in Hrun. rewrite Hclock in Hrun.
  unfold bind at 1. rewrite Hrun. clear Hrun.
  unfold in_window, bound, bind, new_Date_now, ret.
  destruct (if_set (startTime c)) as [s|] eqn:Es;
    [apply if_set_Some in Es as [Es Hs];
     destruct (Date_parse h s) as [ts|] eqn:Ps; [destruct (now <? ts) eqn:Cs|]
    |apply if_set_None in Es as [Es|Es]];
    (destruct (if_set (endTime c)) as [e|] eqn:Ee;
     [apply if_set_Some in Ee as [Ee He];
      destruct (Date_parse h e) as [te|] eqn:Pe; [destruct (te <? now) eqn:Ce|]
     |apply if_set_None in Ee as [Ee|Ee]]);
    repeat (progress (cbv beta iota; cbn [negb andb];
                      rewrite ?Hclock, ?Z.gtb_ltb, ?Cs, ?Ce));
    do 3 eexists; (split; [reflexivity|]); cbn [active config reason];
    rewrite ?Es, ?Ee; cbn [interpolate default];
    try apply Z.ltb_lt in Cs; try apply Z.ltb_ge in Cs;
    try apply Z.ltb_lt in Ce; try apply Z.ltb_ge in Ce;
    (split; [reflexivity|]); (split; [reflexivity|]); (split; [reflexivity|]);
    (split; [discriminate|]).
  all: split; [intros _ s' t' Hs' Hp' Hlt; simplify_eq; try lia; try reflexivity|].
  all: split; [intros _ Hstart e' t' He' Hp' Hlt;
               try (specialize (Hstart _ _ eq_refl Ps)); simplify_eq; try lia;
               try reflexivity|].
  all: try (intros; discriminate).
  all: intros _; split;
    [intros e' He' Hne; simplify_eq; try reflexivity
    |intros [Hn|Hn]; simplify_eq; try reflexivity].
Qed.

Lemma status_follows_decision_table_witness :
  (forall k, clock (Sample.host Sample.t_0100 Sample.window) k = Sample.t_0100)
  /\ Date_parse (Sample.host Sample.t_0100 Sample.window) "" = None
  /\ fetch_raw (Sample.host Sample.t_0100 Sample.window) None = Decoded Sample.window
  /\ validateMaintenanceConfig Sample.window = true
  /\ exists st w' r,
       getMaintenanceStatus (Sample.host Sample.t_0100 Sample.window) None Sample.world0
       = (Returned st, w')
       /\ reason st = Some r
       /\ r = "Maintenance hasn't started yet (starts at 2025-01-20T02:00:00Z)".
Proof.
  assert (Hclock : forall k, clock (Sample.host Sample.t_0100 Sample.window) k
                             = Sample.t_0100) by reflexivity.
  assert (Hfetch : fetch_raw (Sample.host Sample.t_0100 Sample.window) None
                   = Decoded Sample.window) by (vm_compute; reflexivity).
  assert (Hvalid : validateMaintenanceConfig Sample.window = true)
    by (vm_compute; reflexivity).
  repeat (split; [assumption || reflexivity|]).
  destruct (status_follows_decision_table
              (Sample.host Sample.t_0100 Sample.window) None Sample.world0
              Sample.window Sample.t_0100 Hclock eq_refl Hfetch Hvalid)
    as (st & w' & r & Hrun & _ & _ & Hr & _ & Hstart & _).
  exists st, w', r. split; [exact Hrun|]. split; [exact Hr|].
  apply (Hstart ltac:(vm_compute; reflexivity) "2025-01-20T02:00:00Z" Sample.t_0200);
    vm_compute; reflexivity.
Defined.

(** ** The countdown calculator *)

(** C6. [calculateTimeRemaining] returns [null] exactly when [endTime] is
    absent or does not parse. Otherwise, with [end] the parsed instant and
    [now] the clock reading, it returns the breakdown of
    [totalSeconds = max(0, floor((end - now) / 1000))] into
    [days = floor(totalSeconds / 86400)],
    [hours = floor((totalSeconds mod 86400) / 3600)],
    [minutes = floor((totalSeconds mod 3600) / 60)] and
    [seconds = totalSeconds mod 60]; an [endTime] 3661 seconds ahead gives
    0 days, 1 hour, 1 minute, 1 second, and an [endTime] in the past gives
    zeros throughout. The host's [Date] gives an Invalid Date for the empty
    string. *)
Theorem time_remaining_breakdown (h : Host) (endTime : option string) (w : World) :
  Date_parse h "" = None ->
  let now := now_at h w in
  let result := fst (calculateTimeRemaining h endTime w) in
  (result = Returned None <->
     endTime = None \/ exists s, endTime = Some s /\ Date_parse h s = None)
  /\ (forall s end_, endTime = Some s -> Date_parse h s = Some end_ ->
       let total := Z.max 0 ((end_ - now) / 1000) in
       result = Returned (Some {| days := total / 86400;
                                  hours := (total mod 86400) / 3600;
                                  minutes := (total mod 3600) / 60;
                                  seconds := total mod 60;
                                  totalSeconds := total |}))
  /\ (forall s, endTime = Some s -> Date_parse h s = Some (now + 3661 * 1000) ->
       result = Returned (Some {| days := 0; hours := 1; minutes := 1; seconds := 1;
                                  totalSeconds := 3661 |}))
  /\ (forall s end_, endTime = Some s -> Date_parse h s = Some end_ -> end_ < now ->
       result = Returned (Some {| days := 0; hours := 0; minutes := 0; seconds := 0;
                                  totalSeconds := 0 |})).
Proof.
  intros Hempty now result.
  assert (Hsome : forall s end_, endTime = Some s -> Date_parse h s = Some end_ ->
            let total := Z.max 0 ((end_ - now) / 1000) in
            result = Returned (Some {| days := total / 86400;
                                       hours := (total mod 86400) / 3600;
                                       minutes := (total mod 3600) / 60;
                                       seconds := total mod 60;
                                       totalSeconds := total |})).
  { intros s end_ Hs Hp total. subst result.
    assert (E : if_set endTime = Some s).
    { apply if_set_Some. split; [exact Hs|]. intros ->. congruence. }
    unfold calculateTimeRemaining. rewrite E, Hp. run. fold now. fold total.
    destruct (total =? 0) eqn:Hz; simpl.
    - apply Z.eqb_eq in Hz. rewrite Hz. reflexivity.
    - assert (0 <= total) by (unfold total; lia).
      rewrite !Z.rem_mod_nonneg by lia. reflexivity. }
  split; [|split; [exact Hsome|split]].
  - subst result. unfold calculateTimeRemaining.
    destruct (if_set endTime) as [s|] eqn:E.
    + apply if_set_Some in E as [-> Hne].
      destruct (Date_parse h s) as [end_|] eqn:Hp; run.
      * split.
        -- destruct (_ =? 0); discriminate.
        -- intros [H|(s' & H & Hp')]; [discriminate|]. injection H as <-. congruence.
      * split; [|reflexivity]. intros _. right. eauto.
    + simpl. split; [|reflexivity]. intros _.
      apply if_set_None in E as [->| ->]; [left; reflexivity|right; eauto].
  - intros s Hs Hp. rewrite (Hsome s _ Hs Hp).
    replace (now + 3661 * 1000 - now) with 3661000 by lia. reflexivity.
  - intros s end_ Hs Hp Hlt. rewrite (Hsome s _ Hs Hp).
    assert (Hneg : (end_ - now) / 1000 < 0) by (apply Z.div_lt_upper_bound; lia).
    rewrite Z.max_l by lia. reflexivity.
Qed.

Lemma time_remaining_breakdown_witness :
  Date_parse (Sample.host Sample.t_0400_less_3661s Sample.window) "" = None
  /\ fst (calculateTimeRemaining (Sample.host Sample.t_0400_less_3661s Sample.window)
           (Some "2025-01-20T04:00:00Z") Sample.world0)
     = Returned (Some {| days := 0; hours := 1; minutes := 1; seconds := 1;
                         totalSeconds := 3661 |}).
Proof.
  split; [reflexivity|].
  apply (proj1 (proj2 (proj2 (time_remaining_breakdown
                                (Sample.host Sample.t_0400_less_3661s Sample.window)
                                (Some "2025-01-20T04:00:00Z") Sample.world0 eq_refl)))
           "2025-01-20T04:00:00Z").
  - reflexivity.
  - vm_compute. reflexivity.
Defined.

(** C8. [formatCountdown] gives the empty string for [null]; otherwise
    "{days}d {hours}h {minutes}m" when [days > 0] (seconds left out), else
    "{hours}h {minutes}m" when [hours > 0], else "{minutes}m {seconds}s"
    when [minutes > 0], else "{seconds}s". So 2 days, 3 hours, 0 minutes,
    0 seconds reads "2d 3h 0m" and 45 seconds reads "45s". *)
Theorem countdown_format :
  formatCountdown None = ""
  /\ (forall t, days t > 0 ->
       formatCountdown (Some t)
       = Number_toString (days t) +:+ "d " +:+ Number_toString (hours t) +:+ "h "
         +:+ Number_toString (minutes t) +:+ "m")
  /\ (forall t, days t <= 0 -> hours t > 0 ->
       formatCountdown (Some t)
       = Number_toString (hours t) +:+ "h " +:+ Number_toString (minutes t) +:+ "m")
  /\ (forall t, days t <= 0 -> hours t <= 0 -> minutes t > 0 ->
       formatCountdown (Some t)
       = Number_toString (minutes t) +:+ "m " +:+ Number_toString (seconds t) +:+ "s")
  /\ (forall t, days t <= 0 -> hours t <= 0 -> minutes t <= 0 ->
       formatCountdown (Some t) = Number_toString (seconds t) +:+ "s")
  /\ (forall total,
       formatCountdown (Some {| days := 2; hours := 3; minutes := 0; seconds := 0;
                                totalSeconds := total |}) = "2d 3h 0m")
  /\ (forall total,
       formatCountdown (Some {| days := 0; hours := 0; minutes := 0; seconds := 45;
                                totalSeconds := total |}) = "45s").
Proof.
  assert (Hpos : forall x, x > 0 -> (x >? 0) = true)
    by (intros x Hx; apply Z.gtb_lt; lia).
  assert (Hnon : forall x, x <= 0 -> (x >? 0) = false)
    by (intros x Hx; rewrite Z.gtb_ltb; apply Z.ltb_ge; lia).
  unfold formatCountdown.
  split; [reflexivity|]. split; [|split; [|split; [|split; [|split]]]].
  - intros t Hd. rewrite (Hpos _ Hd). reflexivity.
  - intros t Hd Hh. rewrite (Hnon _ Hd), (Hpos _ Hh). reflexivity.
  - intros t Hd Hh Hm. rewrite (Hnon _ Hd), (Hnon _ Hh), (Hpos _ Hm). reflexivity.
  - intros t Hd Hh Hm. rewrite (Hnon _ Hd), (Hnon _ Hh), (Hnon _ Hm). reflexivity.
  - intros total. reflexivity.
  - intros total. reflexivity.
Qed.

Lemma countdown_format_witness :
  formatCountdown (Some {| days := 0; hours := 5; minutes := 7; seconds := 9;
                           totalSeconds := 18429 |}) = "5h 7m".
Proof.
  exact (proj1 (proj2 (proj2 countdown_format))
           {| days := 0; hours := 5; minutes := 7; seconds := 9; totalSeconds := 18429 |}
           ltac:(simpl; lia) ltac:(simpl; lia)).
Defined.

(** ** Scenarios *)

Example iso_parse_0200 : Sample.iso_parse "2025-01-20T02:00:00Z" = Some Sample.t_0200.
Proof. vm_compute. reflexivity. Qed.

Example iso_parse_empty : Sample.iso_parse "" = None.
Proof. reflexivity. Qed.

Example iso_parse_garbage : Sample.iso_parse "next tuesday" = None.
Proof. reflexivity. Qed.

Example as_config_window :
  as_config Sample.window =
  {| enabled := true; startTime := Some "2025-01-20T02:00:00Z";
     endTime := Some "2025-01-20T04:00:00Z"; message := None |}.
Proof. vm_compute. reflexivity. Qed.

Example status_0300 :
  getMaintenanceStatus (Sample.host Sample.t_0300 Sample.window) None Sample.world0 =
  (Returned {| active := true; config := Some Sample.window;
               reason := Some "Maintenance active until 2025-01-20T04:00:00Z" |},
   {| ticks := 1; console := [] |}).
Proof. vm_compute. reflexivity. Qed.

Example status_0100 :
  fst (getMaintenanceStatus (Sample.host Sample.t_0100 Sample.window) None Sample.world0) =
  Returned {| active := false; config := Some Sample.window;
              reason := Some "Maintenance hasn't started yet (starts at 2025-01-20T02:00:00Z)" |}.
Proof. vm_compute. reflexivity. Qed.

Example status_0500 :
  fst (getMaintenanceStatus (Sample.host Sample.t_0500 Sample.window) None Sample.world0) =
  Returned {| active := false; config := Some Sample.window;
              reason := Some "Maintenance has ended (ended at 2025-01-20T04:00:00Z)" |}.
Proof. vm_compute. reflexivity. Qed.

(** The status query reads the clock a second time to explain a closed
    window. If the window opens between the two readings, neither
    explanation applies and the status falls through to the active one. *)
Remark status_across_window_opening :
  fst (isInMaintenanceWindow (Sample.jumping_host Sample.t_0100 Sample.t_0300 Sample.window)
         (as_config Sample.window) Sample.world0) = Returned false
  /\ fst (getMaintenanceStatus
            (Sample.jumping_host Sample.t_0100 Sample.t_0300 Sample.window)
            None Sample.world0)
     = Returned {| active := true; config := Some Sample.window;
                   reason := Some "Maintenance active until 2025-01-20T04:00:00Z" |}.
Proof. split; vm_compute; reflexivity. Qed.

(** A source that is not well-formed JSON: the safe default comes back and
    the failure is logged, unless [silent] is asked for. *)
Example read_malformed_source :
  readMaintenanceConfig (Sample.broken_host Sample.t_0300) None None Sample.world0
  = (Returned safe_default,
     {| ticks := 0;
        console := ["Error reading maintenance config: Unexpected token"] |})
  /\ readMaintenanceConfig (Sample.broken_host Sample.t_0300) None
       (Some {| configPath := None; silent := Some true |}) Sample.world0
     = (Returned safe_default, Sample.world0).
Proof. split; vm_compute; reflexivity. Qed.

(** A missing file is expected and stays silent. *)
Example read_missing_source :
  readMaintenanceConfig (Sample.host Sample.t_0300 Sample.window)
    (Some "/etc/maintenance.json") None Sample.world0
  = (Returned safe_default, Sample.world0).
Proof. vm_compute. reflexivity. Qed.

(** The example configuration shipped with the library's documentation:
    disabled, with empty strings for both bounds. *)
Example shipped_configuration :
  validateMaintenanceConfig
    (obj [("enabled", JBool false); ("message", JStr "We'll be back soon!");
          ("startTime", JStr ""); ("endTime", JStr "")]) = true.
Proof. vm_compute. reflexivity. Qed.

(** * Further properties *)

(** ** The validator and unrelated keys *)

(** Properties other than [enabled], [startTime], [endTime] and [message]
    play no part in validation: adding or overwriting one leaves the verdict
    as it was. *)
Theorem validator_ignores_other_keys (props : gmap string JsValue) (k : string)
    (v : JsValue) :
  k <> "enabled" -> k <> "startTime" -> k <> "endTime" -> k <> "message" ->
  validateMaintenanceConfig (JObj (<[k:=v]> props))
  = validateMaintenanceConfig (JObj props)
  /\ as_config (JObj (<[k:=v]> props)) = as_config (JObj props).
Proof.
  intros H1 H2 H3 H4.
  unfold validateMaintenanceConfig, as_config, get.
  rewrite !lookup_insert_ne by assumption. split; reflexivity.
Qed.

Lemma validator_ignores_other_keys_witness :
  validateMaintenanceConfig
    (JObj (<["note":=JNum 1%float]> (list_to_map [("enabled", JBool true)])))
  = validateMaintenanceConfig (JObj (list_to_map [("enabled", JBool true)])).
Proof.
  apply (validator_ignores_other_keys
           (list_to_map [("enabled", JBool true)]) "note" (JNum 1%float));
    discriminate.
Defined.

(** ** Reading the configuration: what is logged *)

Lemma readMaintenanceConfig_returns (h : Host) (filePath : option string)
    (options : option MaintenanceOptions) (w : World) :
  exists w',
    readMaintenanceConfig h filePath options w = (Returned (read_result h filePath), w')
    /\ ticks w' = ticks w.
Proof.
  unfold read_result, fetch_raw, readMaintenanceConfig, try_catch, bind, lift, ret,
    throw, console_warn.
  destruct (String.prefix "/" (default "public/maintenance.json" filePath));
    [|destruct (process_cwd h) as [e|cwd]];
    try (destruct (readFileSync h _) as [e|text];
         [|destruct (JSON_parse h text) as [e|d];
           [|destruct (validateMaintenanceConfig d) eqn:Hv]]);
    cbn [negb];
    repeat match goal with
           | |- context [if ?b then _ else _] => destruct b
           end;
    eexists; split; reflexivity.
Qed.

Lemma readMaintenanceConfig_silent (h : Host) (filePath configPath : option string)
    (w : World) :
  readMaintenanceConfig h filePath
    (Some {| configPath := configPath; silent := Some true |}) w
  = (Returned (read_result h filePath), w).
Proof.
  unfold read_result, fetch_raw, readMaintenanceConfig, try_catch, bind, lift, ret,
    throw. cbn [default silent negb andb].
  destruct (String.prefix "/" (default "public/maintenance.json" filePath));
    [|destruct (process_cwd h) as [e|cwd]];
    try (destruct (readFileSync h _) as [e|text];
         [|destruct (JSON_parse h text) as [e|d];
           [|destruct (validateMaintenanceConfig d) eqn:Hv]]);
    reflexivity.
Qed.

(** With [silent: true] the read touches nothing: whatever the store does
    (missing file, unreadable file, malformed JSON, rejected structure,
    success), nothing is written to the console and the clock is not read. *)
Theorem silent_read_is_quiet (h : Host) (filePath configPath : option string)
    (w : World) :
  readMaintenanceConfig h filePath
    (Some {| configPath := configPath; silent := Some true |}) w
  = (Returned (read_result h filePath), w).
Proof.
  unfold read_result, fetch_raw, readMaintenanceConfig, try_catch, bind, lift, ret,
    throw. cbn [default silent negb andb].
  destruct (String.prefix "/" (default "public/maintenance.json" filePath));
    [|destruct (process_cwd h) as [e|cwd]];
    try (destruct (readFileSync h _) as [e|text];
         [|destruct (JSON_parse h text) as [e|d];
           [|destruct (validateMaintenanceConfig d) eqn:Hv]]);
    reflexivity.
Qed.

(** Without [silent], the read adds at most one line to the console and
    never reads the clock. An accepted configuration adds nothing; a
    rejected one adds a line naming the path as it was given; a failure to
    reach or decode the store adds a line with the error's message, except
    that an error carrying the code ENOENT (file not found), or a thrown
    value that is not an [Error], adds nothing. *)
Theorem read_log (h : Host) (filePath : option string)
    (options : option MaintenanceOptions) (w : World) :
  (forall o, options = Some o -> silent o <> Some true) ->
  let path := default "public/maintenance.json" filePath in
  let w' := snd (readMaintenanceConfig h filePath options w) in
  ticks w' = ticks w
  /\ console w'
     = (console w ++
        match fetch_raw h filePath with
        | Decoded data =>
            if validateMaintenanceConfig data then []
            else ["Invalid maintenance config structure in " +:+ path
                  +:+ ". Using default: { enabled: false }"]
        | Unreachable e | Malformed e =>
            if is_Error e && negb (bool_decide (error_code e = Some "ENOENT"))
            then ["Error reading maintenance config: " +:+ error_message e]
            else []
        end)%list.
Proof.
  intros Hloud path w'. subst path w'.
  assert (Hs : default false (silent (default {| configPath := None; silent := None |}
                                        options)) = false).
  { destruct options as [[cp [[|]|]]|]; try reflexivity.
    exfalso. eapply Hloud; reflexivity. }
  unfold fetch_raw, readMaintenanceConfig, try_catch, bind, lift, ret, throw,
    console_warn. rewrite Hs. cbn [negb andb].
  destruct (String.prefix "/" (default "public/maintenance.json" filePath));
    [|destruct (process_cwd h) as [e|cwd]];
    try (destruct (readFileSync h _) as [e|text];
         [|destruct (JSON_parse h text) as [e|d];
           [|destruct (validateMaintenanceConfig d) eqn:Hv]]);
    cbn [negb];
    try (destruct (is_Error e);
         [destruct (bool_decide (error_code e = Some "ENOENT"))|]);
    cbn [negb andb fst snd ticks console]; rewrite ?app_nil_r; split; reflexivity.
Qed.

Lemma read_log_witness :
  console (snd (readMaintenanceConfig (Cases.locked_host Sample.t_0300) None None
                  Sample.world0))
  = ["Error reading maintenance config: EACCES: permission denied"].
Proof.
  exact (proj2 (read_log (Cases.locked_host Sample.t_0300) None None Sample.world0
                  ltac:(intros o Ho; discriminate Ho))).
Defined.

(** ** The window check: shape of the window *)

Lemma in_window_spec (h : Host) (now : Z) (c : MaintenanceConfig) :
  in_window h now c = true <->
  (forall t, bound h (startTime c) = Some t -> t <= now)
  /\ (forall t, bound h (endTime c) = Some t -> now <= t).
Proof.
  unfold in_window. rewrite andb_true_iff.
  destruct (bound h (startTime c)) as [ts|]; destruct (bound h (endTime c)) as [te|];
    rewrite ?negb_true_iff, ?Z.gtb_ltb, ?Z.ltb_ge; split.
  all: try (intros [Hs He]; split; intros t Ht; try discriminate;
            injection Ht as <-; assumption).
  all: try (intros [Hs He]; split; auto).
  all: try (intros _; split; intros t Ht; discriminate).
Qed.

(** A window whose start lies after its end is never open: with both
    bounds parsed and [end < start], an enabled configuration is inactive
    at every instant. *)
Theorem inverted_window_never_active (h : Host) (c : MaintenanceConfig) (w : World)
    (s e : string) (ts te : Z) :
  startTime c = Some s -> Date_parse h s = Some ts ->
  endTime c = Some e -> Date_parse h e = Some te ->
  s <> "" -> e <> "" ->
  te < ts ->
  fst (isMaintenanceActive h c w) = Returned false.
Proof.
  intros Hs Ps He Pe Ns Ne Hlt.
  rewrite isMaintenanceActive_verdict.
  destruct (in_window h (now_at h w) c) eqn:Hin; [|rewrite andb_false_r; reflexivity].
  apply in_window_spec in Hin as [Hstart Hend].
  assert (ts <= now_at h w) by (apply Hstart, bound_Some; eauto).
  assert (now_at h w <= te) by (apply Hend, bound_Some; eauto).
  lia.
Qed.

Lemma inverted_window_never_active_witness :
  fst (isMaintenanceActive (Sample.host Sample.t_0300 Sample.window) Cases.inverted
         Sample.world0) = Returned false.
Proof.
  apply (inverted_window_never_active (Sample.host Sample.t_0300 Sample.window)
           Cases.inverted Sample.world0
           "2025-01-20T04:00:00Z" "2025-01-20T02:00:00Z" Sample.t_0400 Sample.t_0200);
    try reflexivity; try discriminate.
Defined.

(** The instants at which a configuration is active form an interval: if
    it is active at two clock readings it is active at every reading in
    between. In particular a window that has closed does not open again. *)
Theorem active_instants_form_an_interval (h : Host) (c : MaintenanceConfig)
    (w1 w2 w3 : World) :
  now_at h w1 <= now_at h w2 -> now_at h w2 <= now_at h w3 ->
  fst (isMaintenanceActive h c w1) = Returned true ->
  fst (isMaintenanceActive h c w3) = Returned true ->
  fst (isMaintenanceActive h c w2) = Returned true.
Proof.
  rewrite !isMaintenanceActive_verdict. intros H12 H23 H1 H3.
  injection H1 as H1. injection H3 as H3.
  apply andb_true_iff in H1 as [Hon H1]. apply andb_true_iff in H3 as [_ H3].
  apply in_window_spec in H1 as [Hs1 _]. apply in_window_spec in H3 as [_ He3].
  rewrite Hon. simpl. f_equal. apply in_window_spec. split; intros t Ht.
  - specialize (Hs1 t Ht). lia.
  - specialize (He3 t Ht). lia.
Qed.

Lemma active_instants_form_an_interval_witness :
  fst (isMaintenanceActive (Cases.hourly_host Sample.window) Sample.scheduled
         {| ticks := 2; console := [] |}) = Returned true.
Proof.
  apply (active_instants_form_an_interval (Cases.hourly_host Sample.window)
           Sample.scheduled
           {| ticks := 1; console := [] |} {| ticks := 2; console := [] |}
           {| ticks := 3; console := [] |});
    vm_compute; (reflexivity || discriminate).
Defined.

(** ** The window check: what it writes and reads *)

(** When every bound that is set parses, the window check writes nothing
    to the console; it reads the clock exactly once. *)
Theorem window_check_quiet_on_wellformed (h : Host) (c : MaintenanceConfig)
    (w : World) :
  parses_if_set h (startTime c) -> parses_if_set h (endTime c) ->
  snd (isInMaintenanceWindow h c w) = {| ticks := S (ticks w); console := console w |}.
Proof.
  unfold parses_if_set. intros Hs He. run.
  destruct (if_set (startTime c)) as [s|] eqn:Es.
  - apply if_set_Some in Es as [Es Ns]. specialize (Hs s Es Ns).
    destruct (Date_parse h s) as [ts|]; [|contradiction]. simpl.
    destruct (clock h (ticks w) <? ts); simpl; [reflexivity|].
    destruct (if_set (endTime c)) as [e|] eqn:Ee; [|reflexivity].
    apply if_set_Some in Ee as [Ee Ne]. specialize (He e Ee Ne).
    destruct (Date_parse h e) as [te|]; [|contradiction]. simpl.
    destruct (clock h (ticks w) >? te); reflexivity.
  - simpl. destruct (if_set (endTime c)) as [e|] eqn:Ee; [|reflexivity].
    apply if_set_Some in Ee as [Ee Ne]. specialize (He e Ee Ne).
    destruct (Date_parse h e) as [te|]; [|contradiction]. simpl.
    destruct (clock h (ticks w) >? te); reflexivity.
Qed.

Lemma window_check_quiet_on_wellformed_witness :
  snd (isInMaintenanceWindow (Sample.host Sample.t_0300 Sample.window)
         Sample.scheduled Sample.world0)
  = {| ticks := 1; console := [] |}.
Proof.
  apply (window_check_quiet_on_wellformed (Sample.host Sample.t_0300 Sample.window)
           Sample.scheduled Sample.world0).
  - intros x Hx _. injection Hx as <-. vm_compute. discriminate.
  - intros x Hx _. injection Hx as <-. vm_compute. discriminate.
Defined.

(** Before a start that parses, the check returns at once: [endTime] is
    not looked at, so even an unparseable [endTime] produces no warning. *)
Theorem not_started_skips_end_bound (h : Host) (c : MaintenanceConfig) (w : World)
    (s : string) (ts : Z) :
  startTime c = Some s -> s <> "" -> Date_parse h s = Some ts ->
  now_at h w < ts ->
  isInMaintenanceWindow h c w
  = (Returned false, {| ticks := S (ticks w); console := console w |}).
Proof.
  intros Hs Ns Ps Hlt.
  assert (E : if_set (startTime c) = Some s) by (apply if_set_Some; auto).
  run. rewrite E, Ps. simpl.
  replace (clock h (ticks w) <? ts) with true by (symmetry; apply Z.ltb_lt; exact Hlt).
  reflexivity.
Qed.

Lemma not_started_skips_end_bound_witness :
  isInMaintenanceWindow (Sample.host Sample.t_0100 Sample.window)
    Cases.start_only_garbage_end Sample.world0
  = (Returned false, {| ticks := 1; console := [] |}).
Proof.
  apply (not_started_skips_end_bound (Sample.host Sample.t_0100 Sample.window)
           Cases.start_only_garbage_end Sample.world0
           "2025-01-20T02:00:00Z" Sample.t_0200);
    try reflexivity; try discriminate.
Defined.

(** ** The status query, for any clock and any store *)

Lemma read_result_safe_default_disabled : enabled (as_config safe_default) = false.
Proof. vm_compute. reflexivity. Qed.

(** Steps through [getMaintenanceStatus] up to the explanation of a closed
    window, leaving the comparisons of the two clock readings to be settled. *)
Ltac status_run h filePath w :=
  let w0 := fresh "w0" in
  let Hread := fresh "Hread" in
  let Ht0 := fresh "Ht0" in
  destruct (readMaintenanceConfig_returns h filePath None w) as (w0 & Hread & Ht0);
  unfold getMaintenanceStatus, bind at 1; rewrite Hread; cbv beta iota zeta.

(** [getMaintenanceStatus] always answers: it never raises, its [config] is
    the value read (never [null]), a [reason] is always present, and it
    reads the clock at most twice. *)
Theorem status_always_answers (h : Host) (filePath : option string) (w : World) :
  exists st w' r,
    getMaintenanceStatus h filePath w = (Returned st, w')
    /\ config st = Some (read_result h filePath)
    /\ reason st = Some r
    /\ (ticks w <= ticks w' <= ticks w + 2)%nat.
Proof.
  status_run h filePath w.
  destruct (enabled (as_config (read_result h filePath))); cbn [negb].
  - destruct (isInMaintenanceWindow_returns h (as_config (read_result h filePath)) w0)
      as (w1 & Hrun & Ht1).
    unfold bind at 1. rewrite Hrun.
    destruct (in_window h (now_at h w0) (as_config (read_result h filePath)));
      unfold bind, new_Date_now, ret; cbn [negb].
    + do 3 eexists. split; [reflexivity|]. cbn [config reason].
      repeat split; lia.
    + repeat match goal with
             | |- context [if ?b then _ else _] => destruct b
             end;
        do 3 eexists; (split; [reflexivity|]); cbn [config reason ticks];
        repeat split; lia.
  - do 3 eexists. split; [reflexivity|]. cbn [config reason]. repeat split; lia.
Qed.

(** Unless the store holds an accepted configuration with [enabled] true,
    the status is the disabled one, and the clock is not read: a store that
    cannot be reached, malformed JSON and a rejected structure all report
    "disabled" with the safe default as [config]. *)
Theorem status_disabled_unless_enabled (h : Host) (filePath : option string)
    (w : World) :
  (forall data, fetch_raw h filePath = Decoded data ->
                validateMaintenanceConfig data = true ->
                enabled (as_config data) = false) ->
  fst (getMaintenanceStatus h filePath w)
  = Returned {| active := false; config := Some (read_result h filePath);
                reason := Some "Maintenance is disabled (enabled: false)" |}
  /\ ticks (snd (getMaintenanceStatus h filePath w)) = ticks w.
Proof.
  intros Hoff.
  assert (Hen : enabled (as_config (read_result h filePath)) = false).
  { unfold read_result. destruct (fetch_raw h filePath) as [e|e|data] eqn:Hf;
      try apply read_result_safe_default_disabled.
    destruct (validateMaintenanceConfig data) eqn:Hv;
      [apply (Hoff data eq_refl Hv) | apply read_result_safe_default_disabled]. }
  assert (Hrun : exists w0,
            getMaintenanceStatus h filePath w
            = (Returned {| active := false; config := Some (read_result h filePath);
                           reason := Some "Maintenance is disabled (enabled: false)" |},
               w0)
            /\ ticks w0 = ticks w).
  { status_run h filePath w. rewrite Hen. cbn [negb]. eauto. }
  destruct Hrun as (w0 & -> & Ht0). split; [reflexivity | exact Ht0].
Qed.

Lemma status_disabled_unless_enabled_witness :
  fst (getMaintenanceStatus (Cases.locked_host Sample.t_0300) None Sample.world0)
  = Returned {| active := false; config := Some safe_default;
                reason := Some "Maintenance is disabled (enabled: false)" |}.
Proof.
  exact (proj1 (status_disabled_unless_enabled (Cases.locked_host Sample.t_0300)
                  None Sample.world0
                  ltac:(intros data Hf; vm_compute in Hf; discriminate Hf))).
Defined.

(** Whatever the clock does, a configuration the gate treats as active is
    never reported inactive: if [isMaintenanceActive] answers true on the
    value read, at the reading the status query starts from, the status is
    active. *)
Theorem gate_open_implies_status_active (h : Host) (filePath : option string)
    (w : World) :
  fst (isMaintenanceActive h (as_config (read_result h filePath)) w) = Returned true ->
  exists st w',
    getMaintenanceStatus h filePath w = (Returned st, w') /\ active st = true.
Proof.
  rewrite isMaintenanceActive_verdict. intros Hgate. injection Hgate as Hgate.
  apply andb_true_iff in Hgate as [Hon Hin].
  change (enabled (as_config (read_result h filePath)) = true) in Hon.
  status_run h filePath w. rewrite Hon. cbn [negb].
  destruct (isInMaintenanceWindow_returns h (as_config (read_result h filePath)) w0)
    as (w1 & Hrun & Ht1).
  unfold bind at 1. rewrite Hrun.
  unfold now_at in *. rewrite Ht0, Hin. unfold bind, ret. cbn [negb].
  do 2 eexists. split; reflexivity.
Qed.

Lemma gate_open_implies_status_active_witness :
  exists st w',
    getMaintenanceStatus (Sample.host Sample.t_0300 Sample.window) None Sample.world0
    = (Returned st, w') /\ active st = true.
Proof.
  apply (gate_open_implies_status_active (Sample.host Sample.t_0300 Sample.window)
           None Sample.world0).
  vm_compute. reflexivity.
Defined.

(** The status query reads the clock once for the window check and once
    more to explain a closed window. If the clock does not run backwards
    between the two readings, the status differs from the gate's verdict
    (taken at the first reading) in one situation only: the start lies after
    the first reading and not after the second, and the status then reports
    active. *)
Theorem status_differs_only_across_start (h : Host) (filePath : option string)
    (w w' : World) (st : MaintenanceStatus) :
  clock h (ticks w) <= clock h (S (ticks w)) ->
  getMaintenanceStatus h filePath w = (Returned st, w') ->
  fst (isMaintenanceActive h (as_config (read_result h filePath)) w)
  = Returned (negb (active st)) ->
  active st = true
  /\ exists s ts,
       startTime (as_config (read_result h filePath)) = Some s
       /\ Date_parse h s = Some ts
       /\ clock h (ticks w) < ts <= clock h (S (ticks w)).
Proof.
  intros Hmono Hrun Hdis. rewrite isMaintenanceActive_verdict in Hdis.
  set (c := as_config (read_result h filePath)) in *.
  assert (Hd : enabled c && in_window h (now_at h w) c = negb (active st))
    by (injection Hdis as Hdis; exact Hdis).
  clear Hdis. revert Hrun Hd.
  status_run h filePath w. fold c.
  destruct (enabled c); cbn [negb andb].
  2:{ unfold ret. intros Hrun. injection Hrun as <- _. cbn [active negb].
      intros Hd. discriminate Hd. }
  destruct (isInMaintenanceWindow_returns h c w0) as (w1 & Hwin & Ht1).
  unfold bind at 1. rewrite Hwin. clear Hwin Hread.
  destruct w0 as [t0 c0], w1 as [t1 c1]. cbn [ticks] in Ht0, Ht1. subst t0 t1.
  unfold now_at, in_window, bound, bind, new_Date_now, ret. cbn [ticks].
  set (now1 := clock h (ticks w)) in *.
  destruct (if_set (startTime c)) as [s|] eqn:Es;
    [apply if_set_Some in Es as [Es Hs];
     destruct (Date_parse h s) as [ts|] eqn:Ps; [destruct (now1 <? ts) eqn:Cs|]|];
    (destruct (if_set (endTime c)) as [e|] eqn:Ee;
     [apply if_set_Some in Ee as [Ee He];
      destruct (Date_parse h e) as [te|] eqn:Pe; [destruct (now1 >? te) eqn:Ce|]|]);
    cbn [negb andb]; cbv beta iota; cbn [ticks];
    repeat match goal with
           | |- context [if ?b then _ else _] => destruct b eqn:?
           end;
    intros Hrun; injection Hrun as <- _; cbn [active negb];
    intros Hd; try discriminate Hd.
  all: repeat match goal with
              | H : (_ >? _) = _ |- _ => rewrite Z.gtb_ltb in H
              | H : (_ <? _) = true |- _ => apply Z.ltb_lt in H
              | H : (_ <? _) = false |- _ => apply Z.ltb_ge in H
              end;
    try lia.
  all: split; [reflexivity|]; exists s, ts; repeat split; (assumption || lia).
Qed.

Lemma status_differs_only_across_start_witness :
  exists s ts,
    startTime (as_config (read_result (Cases.hourly_host Sample.window) None)) = Some s
    /\ Date_parse (Cases.hourly_host Sample.window) s = Some ts
    /\ Sample.t_0100 < ts <= Sample.t_0200.
Proof.
  exact (proj2 (status_differs_only_across_start
                  (Cases.hourly_host Sample.window) None Sample.world0
                  {| ticks := 2; console := [] |}
                  {| active := true; config := Some Sample.window;
                     reason := Some "Maintenance active until 2025-01-20T04:00:00Z" |}
                  ltac:(vm_compute; discriminate)
                  ltac:(vm_compute; reflexivity)
                  ltac:(vm_compute; reflexivity))).
Defined.

(** ** The countdown: arithmetic of the breakdown *)

Lemma calculateTimeRemaining_inv (h : Host) (endTime : option string) (w : World)
    (t : TimeRemaining) :
  fst (calculateTimeRemaining h endTime w) = Returned (Some t) ->
  exists s end_,
    endTime = Some s /\ s <> "" /\ Date_parse h s = Some end_
    /\ totalSeconds t = Z.max 0 ((end_ - now_at h w) / 1000)
    /\ days t = totalSeconds t / 86400
    /\ hours t = (totalSeconds t mod 86400) / 3600
    /\ minutes t = (totalSeconds t mod 3600) / 60
    /\ seconds t = totalSeconds t mod 60.
Proof.
  unfold calculateTimeRemaining.
  destruct (if_set endTime) as [s|] eqn:E; [|discriminate].
  apply if_set_Some in E as [-> Hne].
  destruct (Date_parse h s) as [end_|] eqn:Hp; [|discriminate].
  run. set (total := Z.max 0 ((end_ - clock h (ticks w)) / 1000)).
  assert (0 <= total) by (unfold total; lia).
  destruct (total =? 0) eqn:Hz; simpl; intros Ht; injection Ht as <-;
    exists s, end_; cbn [days hours minutes seconds totalSeconds].
  - apply Z.eqb_eq in Hz. fold total. rewrite Hz. repeat split; auto.
  - rewrite !Z.rem_mod_nonneg by lia. repeat split; auto.
Qed.

(** A breakdown is a proper mixed-radix numeral of the seconds left: hours
    below 24, minutes and seconds below 60, nothing negative, and days,
    hours, minutes and seconds add up to [totalSeconds] again. *)
Theorem breakdown_recomposes (h : Host) (endTime : option string) (w : World)
    (t : TimeRemaining) :
  fst (calculateTimeRemaining h endTime w) = Returned (Some t) ->
  0 <= totalSeconds t /\ 0 <= days t
  /\ 0 <= hours t < 24 /\ 0 <= minutes t < 60 /\ 0 <= seconds t < 60
  /\ days t * 86400 + hours t * 3600 + minutes t * 60 + seconds t = totalSeconds t.
Proof.
  intros Hrun.
  destruct (calculateTimeRemaining_inv h endTime w t Hrun)
    as (s & end_ & _ & _ & _ & Htot & Hd & Hh & Hm & Hs).
  assert (0 <= totalSeconds t) by lia.
  rewrite Hd, Hh, Hm, Hs. clear Hd Hh Hm Hs Htot.
  generalize dependent (totalSeconds t). intros n Hn.
  Z.div_mod_to_equations. lia.
Qed.

Lemma breakdown_recomposes_witness :
  exists t,
    fst (calculateTimeRemaining (Sample.host Sample.t_0100 Sample.window)
           (Some "2025-01-20T04:00:00Z") Sample.world0) = Returned (Some t)
    /\ days t * 86400 + hours t * 3600 + minutes t * 60 + seconds t = totalSeconds t.
Proof.
  eexists. split; [vm_compute; reflexivity|].
  apply (breakdown_recomposes (Sample.host Sample.t_0100 Sample.window)
           (Some "2025-01-20T04:00:00Z") Sample.world0).
  vm_compute. reflexivity.
Defined.

(** The countdown never overstates the time left and understates it by
    less than a second: [totalSeconds] whole seconds fit into the time to
    the end (zero once the end has passed) and one more does not. So it
    shows zero from one second before the end onwards. *)
Theorem countdown_rounds_down (h : Host) (endTime : option string) (w : World)
    (t : TimeRemaining) :
  fst (calculateTimeRemaining h endTime w) = Returned (Some t) ->
  exists s end_,
    endTime = Some s /\ Date_parse h s = Some end_
    /\ totalSeconds t * 1000 <= Z.max 0 (end_ - now_at h w)
       < totalSeconds t * 1000 + 1000
    /\ (totalSeconds t = 0 <-> end_ < now_at h w + 1000).
Proof.
  intros Hrun.
  destruct (calculateTimeRemaining_inv h endTime w t Hrun)
    as (s & end_ & Hs & _ & Hp & Htot & _).
  exists s, end_. split; [exact Hs|]. split; [exact Hp|].
  rewrite Htot. generalize (now_at h w). intros now.
  Z.div_mod_to_equations. lia.
Qed.

Lemma countdown_rounds_down_witness :
  exists t s end_,
    fst (calculateTimeRemaining (Sample.host (Sample.t_0400 - 999) Sample.window)
           (Some "2025-01-20T04:00:00Z") Sample.world0) = Returned (Some t)
    /\ Date_parse (Sample.host (Sample.t_0400 - 999) Sample.window) s = Some end_
    /\ (totalSeconds t = 0 <->
        end_ < now_at (Sample.host (Sample.t_0400 - 999) Sample.window) Sample.world0
               + 1000).
Proof.
  eexists.
  destruct (countdown_rounds_down (Sample.host (Sample.t_0400 - 999) Sample.window)
              (Some "2025-01-20T04:00:00Z") Sample.world0 _
              ltac:(vm_compute; reflexivity))
    as (s & end_ & _ & Hp & _ & Hz).
  exists s, end_. split; [vm_compute; reflexivity|]. split; [exact Hp | exact Hz].
Defined.

(** Time only runs out: of two calls on the same [endTime], the one that
    reads the later clock reports no more seconds than the other. *)
Theorem countdown_is_monotone (h : Host) (endTime : option string) (w1 w2 : World)
    (t1 t2 : TimeRemaining) :
  now_at h w1 <= now_at h w2 ->
  fst (calculateTimeRemaining h endTime w1) = Returned (Some t1) ->
  fst (calculateTimeRemaining h endTime w2) = Returned (Some t2) ->
  totalSeconds t2 <= totalSeconds t1.
Proof.
  intros Hle H1 H2.
  destruct (calculateTimeRemaining_inv h endTime w1 t1 H1)
    as (s1 & e1 & Hs1 & _ & Hp1 & Ht1 & _).
  destruct (calculateTimeRemaining_inv h endTime w2 t2 H2)
    as (s2 & e2 & Hs2 & _ & Hp2 & Ht2 & _).
  assert (s2 = s1) by congruence. subst s2.
  assert (e2 = e1) by congruence. subst e2.
  rewrite Ht1, Ht2. revert Hle. generalize (now_at h w1) (now_at h w2).
  intros n1 n2 Hle. Z.div_mod_to_equations. lia.
Qed.

Lemma countdown_is_monotone_witness :
  exists t1 t2,
    fst (calculateTimeRemaining (Cases.hourly_host Sample.window)
           (Some "2025-01-20T04:00:00Z") {| ticks := 1; console := [] |})
    = Returned (Some t1)
    /\ fst (calculateTimeRemaining (Cases.hourly_host Sample.window)
              (Some "2025-01-20T04:00:00Z") {| ticks := 2; console := [] |})
       = Returned (Some t2)
    /\ totalSeconds t2 <= totalSeconds t1.
Proof.
  do 2 eexists. split; [vm_compute; reflexivity|]. split; [vm_compute; reflexivity|].
  apply (countdown_is_monotone (Cases.hourly_host Sample.window)
           (Some "2025-01-20T04:00:00Z")
           {| ticks := 1; console := [] |} {| ticks := 2; console := [] |});
    vm_compute; (reflexivity || discriminate).
Defined.

(** ** The countdown: what is displayed *)

Lemma append_unit_nonempty (a : string) (c : ascii) (rest : string) :
  a +:+ String c rest <> "".
Proof. destruct a; simpl; discriminate. Qed.

(** The formatted countdown is empty for an absent breakdown only: every
    breakdown, the all-zero one included, renders as a non-empty string, so
    a view that shows the countdown when the string is non-empty shows it
    exactly when there is a breakdown. *)
Theorem format_empty_iff_absent (timeRemaining : option TimeRemaining) :
  formatCountdown timeRemaining = "" <-> timeRemaining = None.
Proof.
  split; [|intros ->; reflexivity].
  destruct timeRemaining as [t|]; [|reflexivity].
  unfold formatCountdown.
  destruct (days t >? 0); [|destruct (hours t >? 0); [|destruct (minutes t >? 0)]];
    intros H; exfalso; revert H; simpl; apply append_unit_nonempty.
Qed.

(** What the user reads, as a function of the seconds left [n]: under a
    minute "{n}s"; under an hour minutes and seconds; under a day hours and
    minutes; from a day on days, hours and minutes. *)
Theorem displayed_countdown (h : Host) (endTime : option string) (w : World)
    (t : TimeRemaining) :
  fst (calculateTimeRemaining h endTime w) = Returned (Some t) ->
  let n := totalSeconds t in
  formatCountdown (Some t)
  = if n <? 60 then Number_toString n +:+ "s"
    else if n <? 3600 then
      Number_toString (n / 60) +:+ "m " +:+ Number_toString (n mod 60) +:+ "s"
    else if n <? 86400 then
      Number_toString (n / 3600) +:+ "h "
      +:+ Number_toString ((n mod 3600) / 60) +:+ "m"
    else
      Number_toString (n / 86400) +:+ "d "
      +:+ Number_toString ((n mod 86400) / 3600) +:+ "h "
      +:+ Number_toString ((n mod 3600) / 60) +:+ "m".
Proof.
  intros Hrun n.
  destruct (calculateTimeRemaining_inv h endTime w t Hrun)
    as (s & end_ & _ & _ & _ & Htot & Hd & Hh & Hm & Hs).
  assert (Hn : 0 <= n) by (unfold n; lia).
  unfold formatCountdown. rewrite !Z.gtb_ltb, Hd, Hh, Hm, Hs. fold n.
  clearbody n. clear Hd Hh Hm Hs Htot Hrun.
  destruct (n <? 60) eqn:C1; [apply Z.ltb_lt in C1 | apply Z.ltb_ge in C1].
  - replace (0 <? n / 86400) with false
      by (symmetry; apply Z.ltb_ge; Z.div_mod_to_equations; lia).
    replace (0 <? n mod 86400 / 3600) with false
      by (symmetry; apply Z.ltb_ge; Z.div_mod_to_equations; lia).
    replace (0 <? n mod 3600 / 60) with false
      by (symmetry; apply Z.ltb_ge; Z.div_mod_to_equations; lia).
    rewrite Z.mod_small by lia. reflexivity.
  - destruct (n <? 3600) eqn:C2; [apply Z.ltb_lt in C2 | apply Z.ltb_ge in C2].
    + replace (0 <? n / 86400) with false
        by (symmetry; apply Z.ltb_ge; Z.div_mod_to_equations; lia).
      replace (0 <? n mod 86400 / 3600) with false
        by (symmetry; apply Z.ltb_ge; Z.div_mod_to_equations; lia).
      replace (0 <? n mod 3600 / 60) with true
        by (symmetry; apply Z.ltb_lt; Z.div_mod_to_equations; lia).
      rewrite (Z.mod_small n 3600) by lia. reflexivity.
    + destruct (n <? 86400) eqn:C3; [apply Z.ltb_lt in C3 | apply Z.ltb_ge in C3].
      * replace (0 <? n / 86400) with false
          by (symmetry; apply Z.ltb_ge; Z.div_mod_to_equations; lia).
        replace (0 <? n mod 86400 / 3600) with true
          by (symmetry; apply Z.ltb_lt; Z.div_mod_to_equations; lia).
        rewrite (Z.mod_small n 86400) by lia. reflexivity.
      * replace (0 <? n / 86400) with true
          by (symmetry; apply Z.ltb_lt; Z.div_mod_to_equations; lia).
        reflexivity.
Qed.

Lemma displayed_countdown_witness :
  formatCountdown
    (Some {| days := 0; hours := 1; minutes := 1; seconds := 1; totalSeconds := 3661 |})
  = "1h 1m".
Proof.
  exact (displayed_countdown (Sample.host Sample.t_0400_less_3661s Sample.window)
           (Some "2025-01-20T04:00:00Z") Sample.world0
           {| days := 0; hours := 1; minutes := 1; seconds := 1; totalSeconds := 3661 |}
           ltac:(vm_compute; reflexivity)).
Defined.

(** ** The example application *)

Lemma isMaintenanceActive_returns (h : Host) (c : MaintenanceConfig) (w : World) :
  exists w',
    isMaintenanceActive h c w = (Returned (enabled c && in_window h (now_at h w) c), w').
Proof.
  pose proof (isMaintenanceActive_verdict h c w) as Hv.
  destruct (isMaintenanceActive h c w) as [r w']. simpl in Hv. subst r. eauto.
Qed.

Lemma getMaintenanceStatus_returns (h : Host) (filePath : option string) (w : World) :
  exists st w', getMaintenanceStatus h filePath w = (Returned st, w').
Proof.
  status_run h filePath w.
  destruct (enabled (as_config (read_result h filePath))); cbn [negb];
    [|unfold ret; eauto].
  destruct (isInMaintenanceWindow_returns h (as_config (read_result h filePath)) w0)
    as (w1 & Hrun & _).
  unfold bind at 1. rewrite Hrun.
  destruct (in_window h (now_at h w0) (as_config (read_result h filePath)));
    unfold bind, new_Date_now, ret; cbn [negb];
    repeat match goal with
           | |- context [if ?b then _ else _] => destruct b
           end;
    eauto.
Qed.

Lemma proxy_run (h : Host) (request : Example.NextRequest) (w : World) :
  exempt (Example.pathname request) = false ->
  exists w',
    Example.proxy h request w
    = (Returned
         (if enabled (as_config (read_result h (Some "public/maintenance.json")))
             && in_window h (now_at h w)
                  (as_config (read_result h (Some "public/maintenance.json")))
          then Example.Redirect "/maintenance" (Example.url request)
          else Example.Next),
       w').
Proof.
  unfold exempt, Example.proxy. intros ->.
  unfold bind at 1. rewrite readMaintenanceConfig_silent.
  destruct (isMaintenanceActive_returns h
              (as_config (read_result h (Some "public/maintenance.json"))) w)
    as (w' & Hrun).
  unfold bind. rewrite Hrun. unfold ret.
  destruct (enabled _ && in_window _ _ _); eauto.
Qed.

Lemma status_active_fixed_clock (h : Host) (filePath : option string) (w : World)
    (now : Z) :
  (forall k, clock h k = now) ->
  exists st w',
    getMaintenanceStatus h filePath w = (Returned st, w')
    /\ active st
       = enabled (as_config (read_result h filePath))
         && in_window h now (as_config (read_result h filePath)).
Proof.
  intros Hclock. set (c := as_config (read_result h filePath)).
  status_run h filePath w. fold c.
  destruct (enabled c); cbn [negb andb]; [|unfold ret; eauto].
  destruct (isInMaintenanceWindow_returns h c w0) as (w1 & Hwin & _).
  unfold bind at 1. rewrite Hwin. clear Hwin Hread.
  unfold now_at, in_window, bound, bind, new_Date_now, ret. rewrite !Hclock.
  destruct (if_set (startTime c)) as [s|];
    [destruct (Date_parse h s) as [ts|]; [destruct (now <? ts) eqn:Cs|]|];
    (destruct (if_set (endTime c)) as [e|];
     [destruct (Date_parse h e) as [te|]; [destruct (now >? te) eqn:Ce|]|]);
    cbn [negb andb]; cbv beta iota;
    rewrite ?Hclock, ?Z.gtb_ltb; rewrite ?Z.gtb_ltb in *; rewrite ?Cs, ?Ce;
    do 2 eexists; split; reflexivity.
Qed.

(** The proxy never raises and decides by the gate alone: a request is
    redirected to [/maintenance] (relative to its own URL) exactly when its
    path is not exempt and [isMaintenanceActive] answers true on the value
    read from [public/maintenance.json]; every other request passes. *)
Theorem proxy_decision (h : Host) (request : Example.NextRequest) (w : World) :
  exists b w',
    fst (isMaintenanceActive h
           (as_config (read_result h (Some "public/maintenance.json"))) w)
    = Returned b
    /\ Example.proxy h request w
       = (Returned
            (if negb (exempt (Example.pathname request)) && b
             then Example.Redirect "/maintenance" (Example.url request)
             else Example.Next),
          w').
Proof.
  eexists. rewrite isMaintenanceActive_verdict.
  destruct (exempt (Example.pathname request)) eqn:Hex.
  - exists w. split; [reflexivity|].
    unfold exempt in Hex. unfold Example.proxy. rewrite Hex. reflexivity.
  - destruct (proxy_run h request w Hex) as (w' & Hrun).
    exists w'. split; [reflexivity | exact Hrun].
Qed.

(** The proxy fails open and stays quiet: unless the store holds an
    accepted configuration with [enabled] true, every request passes and the
    world is untouched (no console line, no clock reading), whether the
    file is missing, unreadable, malformed, rejected or simply disabled. *)
Theorem proxy_fails_open (h : Host) (request : Example.NextRequest) (w : World) :
  (forall data, fetch_raw h (Some "public/maintenance.json") = Decoded data ->
                validateMaintenanceConfig data = true ->
                enabled (as_config data) = false) ->
  Example.proxy h request w = (Returned Example.Next, w).
Proof.
  intros Hoff.
  assert (Hen : enabled (as_config (read_result h (Some "public/maintenance.json")))
                = false).
  { unfold read_result.
    destruct (fetch_raw h (Some "public/maintenance.json")) as [e|e|data] eqn:Hf;
      try apply read_result_safe_default_disabled.
    destruct (validateMaintenanceConfig data) eqn:Hv;
      [apply (Hoff data eq_refl Hv) | apply read_result_safe_default_disabled]. }
  unfold Example.proxy.
  destruct (_ || _ || _ || _); [reflexivity|].
  unfold bind at 1. rewrite readMaintenanceConfig_silent.
  unfold isMaintenanceActive. rewrite Hen. reflexivity.
Qed.

Lemma proxy_fails_open_witness :
  Example.proxy (Cases.locked_host Sample.t_0300) Cases.home Sample.world0
  = (Returned Example.Next, Sample.world0).
Proof.
  apply (proxy_fails_open (Cases.locked_host Sample.t_0300) Cases.home Sample.world0).
  intros data Hf. vm_compute in Hf. discriminate Hf.
Defined.

(** No redirect loop: wherever the proxy redirects to is a path the proxy
    lets through, on any host and in any world, without consulting the
    store. *)
Theorem proxy_never_loops (h : Host) (request : Example.NextRequest) (w w' : World)
    (target base : string) :
  Example.proxy h request w = (Returned (Example.Redirect target base), w') ->
  forall h' request' w'',
    Example.pathname request' = target ->
    Example.proxy h' request' w'' = (Returned Example.Next, w'').
Proof.
  intros Hrun h' request' w'' Hpath.
  assert (Ht : target = "/maintenance").
  { destruct (exempt (Example.pathname request)) eqn:Hex.
    - unfold exempt in Hex. unfold Example.proxy in Hrun. rewrite Hex in Hrun.
      discriminate Hrun.
    - destruct (proxy_run h request w Hex) as (w1 & Hrun1).
      rewrite Hrun1 in Hrun. destruct (_ && _); [|discriminate Hrun].
      injection Hrun as <- _ _. reflexivity. }
  unfold Example.proxy. rewrite Hpath, Ht. reflexivity.
Qed.

Lemma proxy_never_loops_witness :
  Example.proxy (Sample.host Sample.t_0300 Sample.window)
    {| Example.pathname := "/maintenance"; Example.url := "https://example.com/" |}
    Sample.world0
  = (Returned Example.Next, Sample.world0).
Proof.
  apply (proxy_never_loops (Sample.host Sample.t_0300 Sample.window) Cases.home
           Sample.world0 {| ticks := 1; console := [] |}
           "/maintenance" "https://example.com/");
    [vm_compute; reflexivity | reflexivity].
Defined.

(** [silent: true] silences the read, not the window check: when the
    accepted, enabled configuration has a non-empty [startTime] that does not
    parse, every request the proxy checks writes the warning about it. *)
Theorem proxy_warns_on_unparseable_start (h : Host) (request : Example.NextRequest)
    (w : World) (data : JsValue) (s : string) :
  exempt (Example.pathname request) = false ->
  fetch_raw h (Some "public/maintenance.json") = Decoded data ->
  validateMaintenanceConfig data = true ->
  enabled (as_config data) = true ->
  startTime (as_config data) = Some s -> s <> "" -> Date_parse h s = None ->
  exists rest,
    console (snd (Example.proxy h request w))
    = (console w
       ++ ("Invalid startTime format: " +:+ s +:+ ". Ignoring time check.") :: rest)%list.
Proof.
  intros Hex Hf Hv Hon Hs Hne Hp.
  assert (Hr : read_result h (Some "public/maintenance.json") = data)
    by (unfold read_result; rewrite Hf, Hv; reflexivity).
  assert (E : if_set (startTime (as_config data)) = Some s)
    by (apply if_set_Some; auto).
  unfold exempt in Hex. unfold Example.proxy. rewrite Hex.
  unfold bind at 1. rewrite readMaintenanceConfig_silent, Hr.
  unfold isMaintenanceActive. rewrite Hon. cbn [negb].
  unfold isInMaintenanceWindow, bind, new_Date_now, console_warn, ret.
  rewrite E, Hp, Hs. cbn [interpolate default].
  destruct (if_set (endTime (as_config data))) as [e|];
    [destruct (Date_parse h e) as [te|]; [destruct (_ >? te)|]|];
    cbn [fst snd console]; rewrite <- ?app_assoc; eexists; reflexivity.
Qed.

Lemma proxy_warns_on_unparseable_start_witness :
  exists rest,
    console (snd (Example.proxy
                    (Sample.host Sample.t_0300
                       (obj [("enabled", JBool true); ("startTime", JStr "soon")]))
                    Cases.home Sample.world0))
    = "Invalid startTime format: soon. Ignoring time check." :: rest.
Proof.
  apply (proxy_warns_on_unparseable_start
           (Sample.host Sample.t_0300
              (obj [("enabled", JBool true); ("startTime", JStr "soon")]))
           Cases.home Sample.world0
           (obj [("enabled", JBool true); ("startTime", JStr "soon")]) "soon");
    try (vm_compute; reflexivity); discriminate.
Defined.

(** The status route always answers 200 with the status computed by
    [getMaintenanceStatus]; its error branch (status 500) is never taken,
    because the status query never raises. *)
Theorem GET_always_200 (h : Host) (w : World) :
  exists st w',
    getMaintenanceStatus h (Some "public/maintenance.json") w = (Returned st, w')
    /\ Example.GET h w = (Returned (Example.Json st 200), w').
Proof.
  destruct (getMaintenanceStatus_returns h (Some "public/maintenance.json") w)
    as (st & w' & Hrun).
  exists st, w'. split; [exact Hrun|].
  unfold Example.GET, try_catch, bind. rewrite Hrun. reflexivity.
Qed.

(** At a fixed current time the proxy and the status route tell the same
    story: a request whose path is not exempt is redirected exactly when the
    status route reports [active: true]. *)
Theorem proxy_agrees_with_status (h : Host) (request : Example.NextRequest)
    (w : World) (now : Z) :
  (forall k, clock h k = now) ->
  exempt (Example.pathname request) = false ->
  exists st w1 w2,
    Example.GET h w = (Returned (Example.Json st 200), w1)
    /\ Example.proxy h request w
       = (Returned (if active st
                    then Example.Redirect "/maintenance" (Example.url request)
                    else Example.Next), w2).
Proof.
  intros Hclock Hex.
  destruct (status_active_fixed_clock h (Some "public/maintenance.json") w now Hclock)
    as (st & w1 & Hrun & Hact).
  destruct (proxy_run h request w Hex) as (w2 & Hproxy).
  exists st, w1, w2. split.
  - unfold Example.GET, try_catch, bind. rewrite Hrun. reflexivity.
  - rewrite Hproxy, Hact. unfold now_at. rewrite Hclock. reflexivity.
Qed.

Lemma proxy_agrees_with_status_witness :
  exists st w1 w2,
    Example.GET (Sample.host Sample.t_0500 Sample.window) Sample.world0
    = (Returned (Example.Json st 200), w1)
    /\ Example.proxy (Sample.host Sample.t_0500 Sample.window) Cases.home Sample.world0
       = (Returned (if active st
                    then Example.Redirect "/maintenance" (Example.url Cases.home)
                    else Example.Next), w2).
Proof.
  apply (proxy_agrees_with_status (Sample.host Sample.t_0500 Sample.window)
           Cases.home Sample.world0 Sample.t_0500).
  - intros k. reflexivity.
  - vm_compute. reflexivity.
Defined.

(** ** The live countdown *)

Lemma useCountdown_ticks_cleared (h : Host) (endTime : option string) (n : nat)
    (st : Countdown) (w : World) :
  interval st = false ->
  useCountdown_ticks h endTime n st w = (Returned st, w).
Proof.
  intros Hoff. induction n as [|n IH]; [reflexivity|].
  simpl. unfold bind, useCountdown_tick. rewrite Hoff. unfold ret. exact IH.
Qed.

Lemma calculateTimeRemaining_parsed (h : Host) (endTime : option string) (w : World)
    (s : string) (end_ : Z) :
  endTime = Some s -> s <> "" -> Date_parse h s = Some end_ ->
  exists t,
    calculateTimeRemaining h endTime w
    = (Returned (Some t), {| ticks := S (ticks w); console := console w |})
    /\ totalSeconds t = Z.max 0 ((end_ - now_at h w) / 1000)
    /\ (totalSeconds t = 0 ->
        t = {| days := 0; hours := 0; minutes := 0; seconds := 0; totalSeconds := 0 |}).
Proof.
  intros Hs Hne Hp.
  assert (E : if_set endTime = Some s) by (apply if_set_Some; auto).
  unfold calculateTimeRemaining. rewrite E, Hp. run.
  destruct (Z.max 0 ((end_ - clock h (ticks w)) / 1000) =? 0) eqn:Hz; simpl.
  - apply Z.eqb_eq in Hz. eexists. split; [reflexivity|]. simpl. auto.
  - apply Z.eqb_neq in Hz. eexists. split; [reflexivity|]. simpl.
    split; [reflexivity|]. intros H0. contradiction.
Qed.

Lemma useCountdown_ticks_stop (h : Host) (endTime : option string) (s : string)
    (end_ : Z) (n : nat) (st : Countdown) (w : World) :
  endTime = Some s -> s <> "" -> Date_parse h s = Some end_ ->
  end_ < now_at h w + 1000 ->
  interval st = true ->
  useCountdown_ticks h endTime (S n) st w
  = (Returned {| timeRemaining :=
                   Some {| days := 0; hours := 0; minutes := 0; seconds := 0;
                           totalSeconds := 0 |};
                 interval := false |},
     {| ticks := S (ticks w); console := console w |}).
Proof.
  intros Hs Hne Hp Hlate Hon.
  destruct (calculateTimeRemaining_parsed h endTime w s end_ Hs Hne Hp)
    as (t & Hrun & Htot & Hzero).
  assert (Hz : totalSeconds t = 0).
  { rewrite Htot. revert Hlate. generalize (now_at h w). intros now Hlate.
    Z.div_mod_to_equations. lia. }
  specialize (Hzero Hz). subst t.
  cbn [useCountdown_ticks]. unfold bind at 1, useCountdown_tick. rewrite Hon.
  unfold bind at 1. rewrite Hrun. unfold ret. cbn [totalSeconds Z.eqb negb].
  apply useCountdown_ticks_cleared. reflexivity.
Qed.

Lemma useCountdown_ticks_go_on (h : Host) (endTime : option string)
    (s : string) (end_ : Z) (n : nat) (st : Countdown) (w : World) :
  endTime = Some s -> s <> "" -> Date_parse h s = Some end_ ->
  (forall k, clock h k + 1000 <= end_) ->
  interval st = true ->
  exists st',
    useCountdown_ticks h endTime n st w
    = (Returned st', {| ticks := (ticks w + n)%nat; console := console w |})
    /\ interval st' = true.
Proof.
  intros Hs Hne Hp Hearly. revert st w.
  induction n as [|n IH]; intros st w Hon.
  - exists st. split; [|exact Hon]. simpl. unfold ret.
    rewrite Nat.add_0_r. destruct w; reflexivity.
  - destruct (calculateTimeRemaining_parsed h endTime w s end_ Hs Hne Hp)
      as (t & Hrun & Htot & _).
    assert (Hpos : (totalSeconds t =? 0) = false).
    { apply Z.eqb_neq. rewrite Htot. specialize (Hearly (ticks w)).
      unfold now_at. revert Hearly. generalize (clock h (ticks w)). intros now Hearly.
      Z.div_mod_to_equations. lia. }
    cbn [useCountdown_ticks]. unfold bind at 1, useCountdown_tick. rewrite Hon.
    unfold bind at 1. rewrite Hrun. unfold ret. rewrite Hpos. cbn [negb].
    destruct (IH {| timeRemaining := Some t; interval := true |}
                {| ticks := S (ticks w); console := console w |} eq_refl)
      as (st' & Hrest & Hon').
    exists st'. split; [|exact Hon'].
    rewrite Hrest. cbn [ticks console].
    replace (ticks w + S n)%nat with (S (ticks w) + n)%nat by lia. reflexivity.
Qed.

Lemma useCountdown_ticks_warn (h : Host) (endTime : option string)
    (s : string) (n : nat) (st : Countdown) (w : World) :
  endTime = Some s -> s <> "" -> Date_parse h s = None ->
  interval st = true ->
  useCountdown_ticks h endTime (S n) st w
  = (Returned {| timeRemaining := None; interval := true |},
     {| ticks := ticks w;
        console := (console w ++ repeat ("Invalid endTime format: " +:+ s) (S n))%list |}).
Proof.
  intros Hs Hne Hp.
  assert (E : if_set endTime = Some s) by (apply if_set_Some; auto).
  assert (Hstep : forall st w, interval st = true ->
            useCountdown_tick h endTime st w
            = (Returned {| timeRemaining := None; interval := true |},
               {| ticks := ticks w;
                  console := (console w ++ ["Invalid endTime format: " +:+ s])%list |})).
  { intros st0 w0 Hon. unfold useCountdown_tick, calculateTimeRemaining.
    rewrite Hon, E, Hp, Hs. reflexivity. }
  revert st w. induction n as [|n IH]; intros st w Hon.
  - cbn [useCountdown_ticks]. unfold bind. rewrite (Hstep st w Hon). reflexivity.
  - change (useCountdown_ticks h endTime (S (S n)) st w)
      with (bind (useCountdown_tick h endTime st)
              (fun st' => useCountdown_ticks h endTime (S n) st') w).
    unfold bind at 1. rewrite (Hstep st w Hon).
    rewrite (IH {| timeRemaining := None; interval := true |} _ eq_refl).
    cbn [ticks console]. rewrite <- app_assoc. reflexivity.
Qed.







(** ** Paths the proxy leaves alone *)

Lemma prefix_append (p x : string) : String.prefix p (p +:+ x) = true.
Proof.
  induction p as [|a p IH]; [destruct x; reflexivity|].
  simpl. destruct (Ascii.ascii_dec a a); [exact IH | contradiction].
Qed.

Lemma prefix_inv (p s : string) :
  String.prefix p s = true -> exists x, s = p +:+ x.
Proof.
  revert s. induction p as [|a p IH]; intros s H.
  - exists s. reflexivity.
  - destruct s as [|b s]; [discriminate|]. simpl in H.
    destruct (Ascii.ascii_dec a b) as [->|]; [|discriminate].
    destruct (IH s H) as (x & ->). exists x. reflexivity.
Qed.

(** [includes] is substring containment. *)
Lemma includes_spec (needle s : string) :
  Example.includes needle s = true <-> exists a b, s = a +:+ needle +:+ b.
Proof.
  split.
  - induction s as [|c s IH]; cbn [Example.includes]; intros H.
    + rewrite orb_false_r in H. apply prefix_inv in H as (x & Hx).
      exists "", x. exact Hx.
    + apply orb_true_iff in H as [H|H].
      * apply prefix_inv in H as (x & Hx). exists "", x. exact Hx.
      * destruct (IH H) as (a & b & ->). exists (String c a), b. reflexivity.
  - intros (a & b & ->). induction a as [|c a IH].
    + change ("" +:+ needle +:+ b) with (needle +:+ b).
      destruct (needle +:+ b) eqn:E; cbn [Example.includes];
        rewrite <- ?E, prefix_append; reflexivity.
    + change (String c a +:+ needle +:+ b) with (String c (a +:+ needle +:+ b)).
      cbn [Example.includes]. rewrite IH. apply orb_true_r.
Qed.

(** A request for the maintenance page, an API route, a Next.js internal
    or any path with a dot in it passes on every host and in every state of
    the store, maintenance or not, and the world is left untouched: the
    store is not consulted, the clock not read, nothing written. *)
Theorem proxy_passes_reserved_and_dotted_paths (h : Host)
    (request : Example.NextRequest) (w : World) :
  (exists x, Example.pathname request = "/maintenance" +:+ x)
  \/ (exists x, Example.pathname request = "/api/" +:+ x)
  \/ (exists x, Example.pathname request = "/_next/" +:+ x)
  \/ (exists a b, Example.pathname request = a +:+ "." +:+ b) ->
  Example.proxy h request w = (Returned Example.Next, w).
Proof.
  intros Hpath.
  assert (Hex : String.prefix "/maintenance" (Example.pathname request)
                || String.prefix "/api/" (Example.pathname request)
                || String.prefix "/_next/" (Example.pathname request)
                || Example.includes "." (Example.pathname request) = true).
  { destruct Hpath as [(x & ->)|[(x & ->)|[(x & ->)|Hdot]]].
    - rewrite prefix_append. reflexivity.
    - rewrite (prefix_append "/api/"). rewrite orb_true_r. reflexivity.
    - rewrite (prefix_append "/_next/"). rewrite !orb_true_r. reflexivity.
    - apply includes_spec in Hdot. rewrite Hdot. rewrite !orb_true_r. reflexivity. }
  unfold Example.proxy. rewrite Hex. reflexivity.
Qed.

Lemma proxy_passes_reserved_and_dotted_paths_witness :
  Example.proxy (Sample.host Sample.t_0300 Sample.window) Cases.asset Sample.world0
  = (Returned Example.Next, Sample.world0).
Proof.
  apply (proxy_passes_reserved_and_dotted_paths
           (Sample.host Sample.t_0300 Sample.window) Cases.asset Sample.world0).
  right. right. right. exists "/logo", "png". reflexivity.
Defined.
